(** * export_tarball.py: the filtered, reproducible source archive exporter

    A shallow embedding of [export_tarball.py] (class [MyTarFile] and
    [main]) together with the few pieces of the Python library it drives
    ([str] methods, [posixpath], [int], [tarfile.TarFile.add]), followed by
    the properties of the exporter stated in the specification. *)

From Stdlib Require Import String Ascii List ZArith Bool Lia.
Import ListNotations.
Local Open Scope string_scope.
Local Open Scope Z_scope.
#[local] Set Warnings "-register-all".

(* ================================================================== *)
(** ** Python [str] operations *)

Module PyStr.

Definition sep : ascii := "/"%char.

(** [s.startswith(p)] *)
Definition startswith (s p : string) : bool := String.prefix p s.

(** [s.endswith(suf)]: some tail of [s] is [suf]. *)
Fixpoint endswith (s suf : string) : bool :=
  (s =? suf)%string ||
  match s with
  | EmptyString => false
  | String _ s' => endswith s' suf
  end.

(** [sub in s] *)
Fixpoint contains (sub s : string) : bool :=
  String.prefix sub s ||
  match s with
  | EmptyString => false
  | String _ s' => contains sub s'
  end.

(** [x in (a, b, ...)] for a tuple of strings. *)
Definition mem (x : string) (l : list string) : bool :=
  existsb (String.eqb x) l.

(** [s.split('/')] *)
Fixpoint split_sep (s : string) : list string :=
  match s with
  | EmptyString => [EmptyString]
  | String c s' =>
      if Ascii.eqb c sep then EmptyString :: split_sep s'
      else match split_sep s' with
           | x :: xs => String c x :: xs
           | [] => [String c EmptyString]
           end
  end.

(** ['/'.join(l)] *)
Definition join_sep (l : list string) : string := String.concat "/" l.

(** [s.lstrip('/')] *)
Fixpoint lstrip_sep (s : string) : string :=
  match s with
  | String c s' => if Ascii.eqb c sep then lstrip_sep s' else s
  | EmptyString => EmptyString
  end.

(** [s.rstrip('/')] *)
Fixpoint rstrip_sep (s : string) : string :=
  match s with
  | EmptyString => EmptyString
  | String c s' =>
      let r := rstrip_sep s' in
      if Ascii.eqb c sep && (r =? EmptyString)%string then EmptyString
      else String c r
  end.

(** [s == '/' * len(s)] *)
Fixpoint all_sep (s : string) : bool :=
  match s with
  | EmptyString => true
  | String c s' => Ascii.eqb c sep && all_sep s'
  end.

(** [(s[:i], s[i:])] with [i = s.rfind('/') + 1]. *)
Fixpoint rpartition_sep (s : string) : string * string :=
  match s with
  | EmptyString => (EmptyString, EmptyString)
  | String c s' =>
      let (h, t) := rpartition_sep s' in
      if Ascii.eqb c sep then (String c h, t)
      else if (h =? EmptyString)%string then (EmptyString, String c t)
      else (String c h, t)
  end.

(** Truth value of a string: [bool(s)]. *)
Definition truthy (s : string) : bool := negb (s =? EmptyString)%string.

Definition is_space (c : ascii) : bool :=
  let n := N_of_ascii c in
  ((9 <=? n) && (n <=? 13) || (28 <=? n) && (n <=? 32))%N.

Definition is_digit (c : ascii) : bool :=
  let n := N_of_ascii c in ((48 <=? n) && (n <=? 57))%N.

Fixpoint lstrip_space (s : string) : string :=
  match s with
  | String c s' => if is_space c then lstrip_space s' else s
  | EmptyString => EmptyString
  end.

Fixpoint all_space (s : string) : bool :=
  match s with
  | EmptyString => true
  | String c s' => is_space c && all_space s'
  end.

Fixpoint rstrip_space (s : string) : string :=
  match s with
  | EmptyString => EmptyString
  | String c s' => if all_space s then EmptyString else String c (rstrip_space s')
  end.

(** Digits of a decimal literal; a single underscore may separate two
    digits.  [prev] tells whether the previous character was a digit. *)
Fixpoint digits_value (acc : Z) (prev : bool) (s : string) : option Z :=
  match s with
  | EmptyString => if prev then Some acc else None
  | String c s' =>
      if is_digit c
      then digits_value (10 * acc + (Z.of_N (N_of_ascii c) - 48)) true s'
      else if Ascii.eqb c "_"%char && prev then digits_value acc false s'
      else None
  end.

(** [int(s)] for text [s]: surrounding whitespace is dropped, an optional
    sign is read, then a decimal literal.  [None] stands for
    [ValueError]. *)
Definition int (s : string) : option Z :=
  match rstrip_space (lstrip_space s) with
  | String "-"%char r => option_map Z.opp (digits_value 0 false r)
  | String "+"%char r => digits_value 0 false r
  | r => digits_value 0 false r
  end.

End PyStr.

(* ================================================================== *)
(** ** [os.path] on POSIX ([posixpath]) *)

Module PosixPath.
Import PyStr.

(** [os.path.join(a, b)] *)
Definition join (a b : string) : string :=
  if startswith b "/" then b
  else if negb (truthy a) || endswith a "/" then a ++ b
  else a ++ "/" ++ b.

(** [os.path.split(p)] *)
Definition split (p : string) : string * string :=
  let (head, tail) := rpartition_sep p in
  (if truthy head && negb (all_sep head) then rstrip_sep head else head,
   tail).

(** [os.path.basename(p)] *)
Definition basename (p : string) : string := snd (rpartition_sep p).

(** One step of the component loop of [normpath]; the stack [new_comps]
    is kept with its last element first. *)
Definition normpath_step (initial_slashes : bool)
    (new_comps : list string) (comp : string) : list string :=
  if mem comp [EmptyString; "."] then new_comps
  else if negb (comp =? "..")%string
          || (negb initial_slashes && match new_comps with [] => true | _ => false end)
          || match new_comps with last :: _ => (last =? "..")%string | [] => false end
       then comp :: new_comps
       else match new_comps with
            | _ :: rest => rest
            | [] => new_comps
            end.

(** [os.path.normpath(path)] *)
Definition normpath (path : string) : string :=
  if negb (truthy path) then "."
  else
    let initial_slashes : nat :=
      if startswith path "/"
      then if startswith path "//" && negb (startswith path "///")
           then 2%nat else 1%nat
      else 0%nat in
    let comps := split_sep path in
    let new_comps :=
      rev (fold_left (normpath_step (negb (Nat.eqb initial_slashes 0)))
             comps []) in
    let path := join_sep new_comps in
    let path :=
      String.concat EmptyString (repeat "/" initial_slashes) ++ path in
    if truthy path then path else ".".

(** [os.path.abspath(path)], [cwd] being [os.getcwd()]. *)
Definition abspath (cwd path : string) : string :=
  normpath (if startswith path "/" then path else join cwd path).

(** [len(os.path.commonprefix([l1, l2]))] on component lists. *)
Fixpoint common_len (l1 l2 : list string) : nat :=
  match l1, l2 with
  | x :: l1', y :: l2' =>
      if (x =? y)%string then S (common_len l1' l2') else 0%nat
  | _, _ => 0%nat
  end.

(** [os.path.relpath(path, start)]; [None] stands for the [ValueError]
    raised on an empty [path]. *)
Definition relpath (cwd path start : string) : option string :=
  if negb (truthy path) then None
  else
    let start_list := filter truthy (split_sep (abspath cwd start)) in
    let path_list := filter truthy (split_sep (abspath cwd path)) in
    let i := common_len start_list path_list in
    let rel_list :=
      (repeat ".." (List.length start_list - i) ++ skipn i path_list)%list in
    Some (match rel_list with
          | [] => "."
          | _ => join_sep rel_list
          end).

End PosixPath.

(* ================================================================== *)
(** ** The file system as the exporter observes it *)

Module Fs.

(** What [os.lstat] and the [pwd]/[grp] lookups report for one object. *)
Record stat_result := {
  st_mode : Z;
  st_uid : Z;
  st_gid : Z;
  st_mtime : Z;
  pw_name : string;
  gr_name : string
}.

(** A file-system object with everything below it: a regular file, a
    directory or a symbolic link, the kinds of entry the exporter tells
    apart (hard links between files, fifos and devices are left out).  The
    entries of a directory are listed in the order in which [TarFile.add]
    visits them, that of [sorted(os.listdir(name))]; a symbolic link
    carries the object it resolves to, [None] when the link dangles. *)
Inductive node :=
| RegFile (st : stat_result) (data : string)
| Directory (st : stat_result) (entries : list (string * node))
| SymLink (st : stat_result) (linkname : string) (target : option node).

Definition node_stat (n : node) : stat_result :=
  match n with
  | RegFile st _ | Directory st _ | SymLink st _ _ => st
  end.

(** The object reached after following symbolic links. *)
Fixpoint resolve (n : node) : option node :=
  match n with
  | SymLink _ _ (Some t) => resolve t
  | SymLink _ _ None => None
  | _ => Some n
  end.

(** [os.path.islink], [os.path.exists], [os.path.isfile] and
    [os.path.isdir] on the path that names [n]. *)
Definition islink (n : node) : bool :=
  match n with SymLink _ _ _ => true | _ => false end.

Definition exists_ (n : node) : bool :=
  match resolve n with Some _ => true | None => false end.

Definition isfile (n : node) : bool :=
  match resolve n with Some (RegFile _ _) => true | _ => false end.

Definition isdir (n : node) : bool :=
  match resolve n with Some (Directory _ _) => true | _ => false end.

End Fs.

(* ================================================================== *)
(** ** Effects: what a run does, in program order *)

Module Tar.

Inductive tartype := REGTYPE | DIRTYPE | SYMTYPE.

(** The fields of [tarfile.TarInfo] the exporter touches. *)
Record TarInfo := {
  name : string;
  mode : Z;
  uid : Z;
  gid : Z;
  size : nat;
  mtime : Z;
  type : tartype;
  linkname : string;
  uname : string;
  gname : string
}.


End Tar.

Module Run.

Inductive exn := ValueError | TypeError | OSError.

Inductive event :=
| Print (line : string)
| OpenOutput (path : string)
| Popen (argv : list string)
| ReadFile (path : string)
| AddFile (ti : Tar.TarInfo) (data : option string)
| CloseArchive
| CloseStdin
| CloseOutput.

Inductive result (A : Type) :=
| Ok (a : A)
| Raise (e : exn).
Arguments Ok {A} a.
Arguments Raise {A} e.

(** A computation: the events it performed, then its value or the
    exception that ended it. *)
Definition M (A : Type) : Type := list event * result A.

Definition ret {A} (a : A) : M A := ([], Ok a).
Definition raise {A} (e : exn) : M A := ([], Raise e).
Definition emit (ev : event) : M unit := ([ev], Ok tt).

Definition bind {A B} (m : M A) (k : A -> M B) : M B :=
  match m with
  | (t, Ok a) => let (t', r) := k a in ((t ++ t')%list, r)
  | (t, Raise e) => (t, Raise e)
  end.

(** [try: body finally: cleanup] *)
Definition try_finally {A} (body : M A) (cleanup : M unit) : M A :=
  match body with
  | (t, r) =>
      match cleanup with
      | (t', Ok _) => ((t ++ t')%list, r)
      | (t', Raise e) => ((t ++ t')%list, Raise e)
      end
  end.

Definition trace {A} (m : M A) : list event := fst m.
Definition outcome {A} (m : M A) : result A := snd m.

(** The members written to the archive stream, in order. *)
Fixpoint members (t : list event) : list (Tar.TarInfo * option string) :=
  match t with
  | [] => []
  | AddFile ti d :: t' => (ti, d) :: members t'
  | _ :: t' => members t'
  end.



(** The files opened for writing. *)
Fixpoint outputs (t : list event) : list string :=
  match t with
  | [] => []
  | OpenOutput p :: t' => p :: outputs t'
  | _ :: t' => outputs t'
  end.

End Run.

Declare Scope run_scope.
Delimit Scope run_scope with run.
Notation "x <- m ;; k" := (Run.bind m (fun x => k))
  (at level 61, m at next level, right associativity) : run_scope.
Notation "m ;; k" := (Run.bind m (fun _ => k))
  (at level 61, right associativity) : run_scope.

(* ================================================================== *)
(** ** [tarfile.TarFile]: the inherited [add] *)

Module TarFile.
Import PyStr PosixPath Fs Tar Run.
Local Open Scope run_scope.

(** [TarFile.gettarinfo(name, arcname)]: the header fields taken from
    [os.lstat(name)] (links are not followed). *)
Definition gettarinfo (arcname : string) (n : node) : TarInfo :=
  let statres := node_stat n in
  {| name := lstrip_sep arcname;
     mode := st_mode statres;
     uid := st_uid statres;
     gid := st_gid statres;
     size := match n with RegFile _ data => String.length data | _ => 0%nat end;
     mtime := st_mtime statres;
     type := match n with
             | RegFile _ _ => REGTYPE
             | Directory _ _ => DIRTYPE
             | SymLink _ _ _ => SYMTYPE
             end;
     linkname := match n with SymLink _ l _ => l | _ => EmptyString end;
     uname := pw_name statres;
     gname := gr_name statres |}.

(** [TarFile.addfile(tarinfo, fileobj)] *)
Definition addfile (tarinfo : TarInfo) (data : option string) : M unit :=
  emit (AddFile tarinfo data).

(** [TarFile.add(self, name, arcname, recursive=True, filter=filter)].
    The recursive call on the children of a directory goes through
    [self.add], the method of the object's own class, here [self_add]. *)
Definition add (self_add : string -> string -> node -> M unit)
    (name arcname : string) (n : node) (filter : TarInfo -> TarInfo)
    : M unit :=
  let tarinfo := filter (gettarinfo arcname n) in
  match n with
  | RegFile _ data => addfile tarinfo (Some data)
  | Directory _ entries =>
      addfile tarinfo None ;;
      (fix loop (es : list (string * node)) : M unit :=
         match es with
         | [] => ret tt
         | (f, c) :: es' =>
             self_add (join name f) (join arcname f) c ;; loop es'
         end) entries
  | SymLink _ _ _ => addfile tarinfo None
  end.

End TarFile.

(* ================================================================== *)
(** ** [export_tarball.py] *)

Module ExportTarball.
Import PyStr PosixPath Fs Run.
Local Open Scope run_scope.

Definition nonessential_dirs : list string := [
  "build/linux/debian_bullseye_amd64-sysroot";
  "build/linux/debian_bullseye_i386-sysroot";
  "third_party/blink/tools";
  "third_party/blink/web_tests";
  "third_party/hunspell_dictionaries";
  "third_party/hunspell/tests";
  "third_party/instrumented_libs";
  "third_party/jdk/current";
  "third_party/jdk/extras";
  "third_party/liblouis/src/tests/braille-specs";
  "third_party/llvm-build";
  "third_party/xdg-utils/tests";
  "v8/test"
].

Definition ESSENTIAL_FILES : list string := [
  "chrome/test/data/webui/i18n_process_css_test.html";
  "chrome/test/data/webui/mojo/foobar.mojom";
  "chrome/test/data/webui/web_ui_test.mojom";
  "v8/test/torque/test-torque.tq"
].

Definition ESSENTIAL_GIT_DIRS : list string := [
  "third_party/rust-src/"
].

Definition TEST_DIRS : list string := [
  "chrome/test/data";
  "content/test/data";
  "courgette/testdata";
  "extensions/test/data";
  "media/test/data";
  "native_client/src/trusted/service_runtime/testdata";
  "third_party/breakpad/breakpad/src/processor/testdata";
  "third_party/catapult/tracing/test_data"
].

(** [stat.S_IWUSR] = 0o200 *)
Definition S_IWUSR : Z := 128.

Definition tab : string := String "009"%char EmptyString.
Definition dquote : string := String "034"%char EmptyString.

(** The private fields of a [MyTarFile], as the four setters leave
    them. *)
Record MyTarFile := {
  remove_nonessential_files : bool;
  verbose : bool;
  src_dir : string;
  mtime : Z
}.

(** [MyTarFile.set_remove_nonessential_files] *)
Definition set_remove_nonessential_files (self : MyTarFile) (remove : bool)
    : MyTarFile :=
  {| remove_nonessential_files := remove;
     verbose := verbose self;
     src_dir := src_dir self;
     mtime := mtime self |}.

(** [MyTarFile.set_verbose] *)
Definition set_verbose (self : MyTarFile) (v : bool) : MyTarFile :=
  {| remove_nonessential_files := remove_nonessential_files self;
     verbose := v;
     src_dir := src_dir self;
     mtime := mtime self |}.

Inductive decision := INCLUDE | EXCLUDE.

Section Process.
(** [os.getcwd()], which [os.path.relpath] consults. *)
Variable cwd : string.

(** [MyTarFile.__report_skipped] *)
Definition report_skipped (self : MyTarFile) (name : string) : M unit :=
  if verbose self then emit (Print ("D" ++ tab ++ name)) else ret tt.

(** [MyTarFile.__report_added] *)
Definition report_added (self : MyTarFile) (name : string) : M unit :=
  if verbose self then emit (Print ("A" ++ tab ++ name)) else ret tt.

(** [MyTarFile.__filter] *)
Definition filter (self : MyTarFile) (tar_info : Tar.TarInfo)
    : Tar.TarInfo :=
  {| Tar.name := Tar.name tar_info;
     Tar.mode := Z.lor (Tar.mode tar_info) S_IWUSR;
     Tar.uid := 0;
     Tar.gid := 0;
     Tar.size := Tar.size tar_info;
     Tar.mtime := mtime self;
     Tar.type := Tar.type tar_info;
     Tar.linkname := Tar.linkname tar_info;
     Tar.uname := "0";
     Tar.gname := "0" |}.

(** [keep_file] of [MyTarFile.add] (lines 120-122). *)
Definition keep_file (file_name rel_name : string) : bool :=
  contains ".gyp" file_name || contains ".gn" file_name ||
  contains ".isolate" file_name || contains ".grd" file_name ||
  endswith file_name ".pydeps" || mem rel_name ESSENTIAL_FILES.

(** The loop over [set(nonessential_dirs) | set(TEST_DIRS)] (lines
    125-128): does some iteration return?  The order of the iteration
    does not matter to that. *)
Definition in_nonessential_dir (rel_name : string) (n : node) : bool :=
  existsb (fun nonessential_dir =>
             startswith rel_name nonessential_dir && isfile n)
          (nonessential_dirs ++ TEST_DIRS).

(** The part of [MyTarFile.add] that decides (lines 87-128): [EXCLUDE]
    where the method reports the name as skipped and returns, [INCLUDE]
    where it goes on to [TarFile.add]. *)
Definition add_decision (self : MyTarFile) (name : string) (n : node)
    : result decision :=
  if islink n && negb (exists_ n) then Ok EXCLUDE
  else
    match relpath cwd name (src_dir self) with
    | None => Raise ValueError
    | Some rel_name =>
        let (file_path, file_name) := split name in
        if (file_name =? "__pycache__")%string
           || endswith file_name ".pyc"
        then Ok EXCLUDE
        else if mem file_name [".svn"; "out"]
                && negb (contains "node_modules" file_path)
        then Ok EXCLUDE
        else if (file_name =? ".git")%string
                && negb (existsb (startswith rel_name) ESSENTIAL_GIT_DIRS)
        then Ok EXCLUDE
        else if remove_nonessential_files self
        then
          if contains "ChangeLog" name then Ok EXCLUDE
          else if negb (keep_file file_name rel_name)
                  && in_nonessential_dir rel_name n
          then Ok EXCLUDE
          else Ok INCLUDE
        else Ok INCLUDE
    end.

(** [MyTarFile.add] *)
Fixpoint add (self : MyTarFile) (name arcname : string) (n : node)
    {struct n} : M unit :=
  match add_decision self name n with
  | Raise e => raise e
  | Ok EXCLUDE => report_skipped self name
  | Ok INCLUDE =>
      report_added self name ;;
      TarFile.add (fun name' arcname' c => add self name' arcname' c)
        name arcname n (filter self)
  end.

(** The loop of [TarFile.add] over the entries of a directory, with
    [MyTarFile.add] as the method it calls. *)
Fixpoint add_entries (self : MyTarFile) (name arcname : string)
    (es : list (string * node)) : M unit :=
  match es with
  | [] => ret tt
  | (f, c) :: es' =>
      add self (join name f) (join arcname f) c ;;
      add_entries self name arcname es'
  end.

End Process.

(** The result of [parser.parse_args(argv)]: the option values. *)
Module options.
Record t := {
  basename : option string;
  remove_nonessential_files : bool;
  test_data : bool;
  xz : bool;
  verbose : bool;
  src_dir : option string;
  version : option string
}.
End options.

(** The process environment of one run. *)
Record world := {
  (** [os.getcwd()] *)
  getcwd : string;
  (** the object a non-empty path names, with all that lies below it *)
  lstat : string -> option node;
  (** whether [open(path, 'w')] succeeds *)
  writable : string -> bool;
  (** the status [xz.wait()] returns; [None] when [xz] cannot be started *)
  xz_returncode : option Z
}.

Definition os_lstat (w : world) (path : string) : option node :=
  if truthy path then lstat w path else None.

(** [os.path.exists(path)] and [os.path.isdir(path)] *)
Definition path_exists (w : world) (path : string) : bool :=
  match os_lstat w path with Some n => exists_ n | None => false end.

Definition path_isdir (w : world) (path : string) : bool :=
  match os_lstat w path with Some n => isdir n | None => false end.

(** [open(path, 'w')] *)
Definition open_w (w : world) (path : string) : M unit :=
  if writable w path then emit (OpenOutput path) else raise OSError.

(** [subprocess.Popen(argv, ...)] *)
Definition popen (w : world) (argv : list string) : M unit :=
  match xz_returncode w with
  | Some _ => emit (Popen argv)
  | None => raise OSError
  end.

(** [open(path, 'r')] followed by [f.read()] *)
Definition read_text (w : world) (path : string) : M string :=
  match os_lstat w path with
  | Some n =>
      match resolve n with
      | Some (RegFile _ data) => emit (ReadFile path) ;; ret data
      | _ => raise OSError
      end
  | None => raise OSError
  end.

(** [int(text)] *)
Definition int (text : string) : M Z :=
  match PyStr.int text with
  | Some z => ret z
  | None => raise ValueError
  end.

(** [archive.add(path, arcname=arcname)] on a path given by name. *)
Definition add_path (w : world) (self : MyTarFile)
    (path arcname : string) : M unit :=
  match os_lstat w path with
  | Some n => add (getcwd w) self path arcname n
  | None => raise OSError
  end.

(** The loop [for directory in TEST_DIRS] of [main]. *)
Fixpoint add_test_dirs (w : world) (self : MyTarFile)
    (output_basename : string) (dirs : list string) : M unit :=
  match dirs with
  | [] => ret tt
  | directory :: rest =>
      let test_dir := join (src_dir self) directory in
      (if negb (path_isdir w test_dir)
       then emit (Print (dquote ++ test_dir ++ dquote
                           ++ " not present; skipping."))
       else add_path w self test_dir (join output_basename directory)) ;;
      add_test_dirs w self output_basename rest
  end.

(** [main(argv)], from the result of [parser.parse_args(argv)] on. *)
Definition main (w : world) (opts : options.t) (args : list string)
    : M Z :=
  match args with
  | [arg0] =>
      if negb (match options.version opts with
               | Some v => truthy v
               | None => false
               end)
      then
        emit (Print "A version number must be provided via the --version option.") ;;
        ret 1
      else
        match options.src_dir opts with
        | None => raise TypeError
        | Some src =>
            if negb (path_exists w src)
            then
              emit (Print ("Cannot find the src directory " ++ src)) ;;
              ret 1
            else
              let output_fullname := arg0 ++ ".tar.xz" in
              let output_basename :=
                match options.basename opts with
                | Some b => if truthy b then b else basename arg0
                | None => basename arg0
                end in
              open_w w output_fullname ;;
              popen w ["xz"; "-T"; "0"; "-9"; "-"] ;;
              text <- read_text w (join src "build/util/LASTCHANGE.committime") ;;
              timestamp <- int text ;;
              let archive :=
                {| remove_nonessential_files :=
                     options.remove_nonessential_files opts;
                   verbose := options.verbose opts;
                   src_dir := src;
                   mtime := timestamp |} in
              try_finally
                (if options.test_data opts
                 then add_test_dirs w archive output_basename TEST_DIRS
                 else add_path w archive src output_basename)
                (emit CloseArchive) ;;
              emit CloseStdin ;;
              if negb (match xz_returncode w with
                       | Some c => c =? 0
                       | None => false
                       end)
              then emit (Print "xz -9 failed!") ;; ret 1
              else emit CloseOutput ;; ret 0
        end
  | _ =>
      emit (Print "You must provide only one argument: output file name") ;;
      emit (Print "(without .tar.xz extension).") ;;
      ret 1
  end.


End ExportTarball.

(* ================================================================== *)
(** ** Notions used to state the properties *)

Module Props.
Import PyStr PosixPath Fs Run ExportTarball.


(** The data handed to [addfile] with the header of [n]. *)
Definition file_data (n : node) : option string :=
  match n with RegFile _ data => Some data | _ => None end.

(** Events a walk may perform. *)
Definition walk_event (ev : event) : bool :=
  match ev with Print _ | AddFile _ _ => true | _ => false end.

(** What of [os.lstat] varies between two checkouts of the same tree:
    owner, group, their names and the modification time. *)
Definition scrub_stat (st : stat_result) : stat_result :=
  {| st_mode := st_mode st; st_uid := 0; st_gid := 0; st_mtime := 0;
     pw_name := EmptyString; gr_name := EmptyString |}.

(** The tree [n] with [f] applied to what [os.lstat] reports for each
    of its objects. *)
Fixpoint map_stat (f : stat_result -> stat_result) (n : node) : node :=
  match n with
  | RegFile st data => RegFile (f st) data
  | Directory st es =>
      Directory (f st)
        ((fix go (l : list (string * node)) :=
            match l with
            | [] => []
            | (name, c) :: l' => (name, map_stat f c) :: go l'
            end) es)
  | SymLink st l t =>
      SymLink (f st) l
        (match t with Some x => Some (map_stat f x) | None => None end)
  end.

Definition scrub (n : node) : node := map_stat scrub_stat n.

(** Two trees with the same names, kinds, permission bits, contents and
    link targets. *)
Definition same_tree (n1 n2 : node) : Prop := scrub n1 = scrub n2.

(** Two environments that show the same source tree. *)
Definition same_world (w1 w2 : world) : Prop :=
  getcwd w1 = getcwd w2 /\
  (forall p, writable w1 p = writable w2 p) /\
  xz_returncode w1 = xz_returncode w2 /\
  (forall p, match lstat w1 p, lstat w2 p with
             | Some n1, Some n2 => same_tree n1 n2
             | None, None => True
             | _, _ => False
             end).

(** Names for parts of [main]: the timestamp file, the archive object
    after the four setters, the name of the root inside the archive, and
    the walk proper (the body of the [try]). *)
Definition timestamp_file (src : string) : string :=
  join src "build/util/LASTCHANGE.committime".

Definition archive_of (opts : options.t) (src : string) (timestamp : Z)
    : MyTarFile :=
  {| remove_nonessential_files := options.remove_nonessential_files opts;
     verbose := options.verbose opts;
     src_dir := src;
     mtime := timestamp |}.

Definition output_basename_of (opts : options.t) (arg0 : string) : string :=
  match options.basename opts with
  | Some b => if truthy b then b else basename arg0
  | None => basename arg0
  end.

Definition walk (w : world) (opts : options.t) (src arg0 : string)
    (timestamp : Z) : M unit :=
  if options.test_data opts
  then add_test_dirs w (archive_of opts src timestamp)
         (output_basename_of opts arg0) TEST_DIRS
  else add_path w (archive_of opts src timestamp) src
         (output_basename_of opts arg0).

(** The run gets as far as the walk: one output name, a version, a
    source directory that exists, an output file that can be created, an
    [xz] that starts and will return [c], and a timestamp file that reads
    as the integer [timestamp]. *)
Definition reaches_walk (w : world) (opts : options.t) (args : list string)
    (arg0 src : string) (c timestamp : Z) : Prop :=
  args = [arg0] /\
  (exists v, options.version opts = Some v /\ truthy v = true) /\
  options.src_dir opts = Some src /\
  path_exists w src = true /\
  writable w (arg0 ++ ".tar.xz") = true /\
  xz_returncode w = Some c /\
  exists text,
    read_text w (timestamp_file src)
      = ([ReadFile (timestamp_file src)], Ok text) /\
    PyStr.int text = Some timestamp.

(** Directory entries are named as [os.listdir] names them: not empty
    and without a slash. *)
Fixpoint wf_node (n : node) : bool :=
  match n with
  | RegFile _ _ => true
  | Directory _ es =>
      (fix go (l : list (string * node)) : bool :=
         match l with
         | [] => true
         | (f, c) :: l' =>
             truthy f && negb (contains "/" f) && wf_node c && go l'
         end) es
  | SymLink _ _ _ => true
  end.


(** [options.version] is set and not empty. *)
Definition version_given (opts : options.t) : bool :=
  match options.version opts with
  | Some v => truthy v
  | None => false
  end.




(** *** Statements of the specification that the code does not meet as
    they are worded; each is refuted below and followed by the statement
    that holds. *)

(** "An entry that matches [essentialFiles] or a keep marker is included"
    without further condition. *)
Definition essential_always_included : Prop :=
  forall cwd self name n rel_name file_path file_name,
    remove_nonessential_files self = true ->
    relpath cwd name (src_dir self) = Some rel_name ->
    split name = (file_path, file_name) ->
    keep_file file_name rel_name = true ->
    add_decision cwd self name n = Ok INCLUDE.

(** "A directory under a trimmed prefix is itself always included." *)
Definition trimmed_directory_always_included : Prop :=
  forall cwd self name st es rel_name d,
    remove_nonessential_files self = true ->
    relpath cwd name (src_dir self) = Some rel_name ->
    In d (nonessential_dirs ++ TEST_DIRS) ->
    startswith rel_name d = true ->
    add_decision cwd self name (Directory st es) = Ok INCLUDE.

(** "[.svn] and [out] are excluded unless [node_modules] is a component
    of the path." *)
Definition out_excluded_unless_component : Prop :=
  forall cwd self name n file_path file_name,
    split name = (file_path, file_name) ->
    mem file_name [".svn"; "out"] = true ->
    ~ In "node_modules" (split_sep name) ->
    add_decision cwd self name n = Ok EXCLUDE.


End Props.

(* ================================================================== *)
(** ** A small source tree to run the exporter on *)

Module Sample.
Import PyStr PosixPath Fs Run ExportTarball.

Definition dir_stat : stat_result :=
  {| st_mode := 16877; st_uid := 1000; st_gid := 1000;
     st_mtime := 1700000000; pw_name := "dev"; gr_name := "dev" |}.

(** [-r--r--r--], [-rw-r--r--] and [-r-xr-xr-x] regular files. *)
Definition ro_stat : stat_result :=
  {| st_mode := 33060; st_uid := 1000; st_gid := 1000;
     st_mtime := 1700000001; pw_name := "dev"; gr_name := "dev" |}.

Definition rw_stat : stat_result :=
  {| st_mode := 33188; st_uid := 1000; st_gid := 1000;
     st_mtime := 1700000002; pw_name := "dev"; gr_name := "dev" |}.

Definition rx_stat : stat_result :=
  {| st_mode := 33133; st_uid := 1001; st_gid := 50;
     st_mtime := 1700000003; pw_name := "bot"; gr_name := "staff" |}.

Definition link_stat : stat_result :=
  {| st_mode := 41471; st_uid := 1000; st_gid := 1000;
     st_mtime := 1700000004; pw_name := "dev"; gr_name := "dev" |}.

Definition newline : string := String "010"%char EmptyString.

(** A checkout whose [build/util] directory holds [util_entries]. *)
Definition tree_with (util_entries : list (string * node)) : node :=
  Directory dir_stat [
    ("build", Directory dir_stat [
       ("util", Directory dir_stat util_entries)]);
    ("chrome", Directory dir_stat [
       ("test", Directory dir_stat [
          ("data", Directory dir_stat [
             ("page.html", RegFile ro_stat "<html>");
             ("run.sh", RegFile rx_stat "#!/bin/sh");
             ("stale", SymLink link_stat "gone" None)])])]);
    ("v8", Directory dir_stat [
       ("BUILD.gn", RegFile rw_stat "group");
       ("test", Directory dir_stat [
          ("a.cc", RegFile ro_stat "x")]);
       ("testsuite", Directory dir_stat [
          ("b.cc", RegFile rw_stat "y")])])
  ].

Definition tree : node :=
  tree_with [("LASTCHANGE.committime",
              RegFile rw_stat ("1712345678" ++ newline))].

(** The object below [n] that a list of components names. *)
Fixpoint lookup_in (n : node) (comps : list string) : option node :=
  match comps with
  | [] => Some n
  | c :: rest =>
      match resolve n with
      | Some (Directory _ es) =>
          match find (fun p => (fst p =? c)%string) es with
          | Some (_, child) => lookup_in child rest
          | None => None
          end
      | _ => None
      end
  end.

(** The tree [t] checked out at [src], relative to the working
    directory; [xz] is what the compressor will do. *)
Definition world_of (t : node) (xz : option Z) : world :=
  {| getcwd := "/work";
     lstat := fun p =>
       match split_sep p with
       | "src" :: comps => lookup_in t comps
       | _ => None
       end;
     writable := fun _ => true;
     xz_returncode := xz |}.

Definition the_world : world := world_of tree (Some 0).

(** The same checkout without its timestamp file. *)
Definition world_without_timestamp : world :=
  world_of (tree_with []) (Some 0).

(** The same checkout made a day later by another user. *)
Definition other_owner (st : stat_result) : stat_result :=
  {| st_mode := st_mode st; st_uid := 0; st_gid := 0;
     st_mtime := st_mtime st + 86400;
     pw_name := "root"; gr_name := "root" |}.

Definition second_checkout (w : world) : world :=
  {| getcwd := getcwd w;
     lstat := fun p => option_map (Props.map_stat other_owner) (lstat w p);
     writable := writable w;
     xz_returncode := xz_returncode w |}.

(** An archive object over [src], as [main] sets it up. *)
Definition archive (trim verbose : bool) : MyTarFile :=
  {| remove_nonessential_files := trim;
     verbose := verbose;
     src_dir := "src";
     mtime := 1712345678 |}.

Definition dangling : node := SymLink link_stat "../gone.tq" None.

Definition empty_dir : node := Directory dir_stat [].

Definition opts_with (trim test_data : bool) (src version : option string)
    : options.t :=
  {| options.basename := None;
     options.remove_nonessential_files := trim;
     options.test_data := test_data;
     options.xz := false;
     options.verbose := false;
     options.src_dir := src;
     options.version := version |}.

Definition full_opts : options.t :=
  opts_with false false (Some "src") (Some "124.0.1").



End Sample.

(* ================================================================== *)
(** ** Notions for the further properties of the walk *)

Module Walks.
Import PyStr PosixPath Fs Run ExportTarball.


(** A name as [os.listdir] gives it: not empty, without a slash, and
    neither [.] nor [..]. *)
Definition entry_name (f : string) : bool :=
  truthy f && negb (contains "/" f)
  && negb (f =? ".")%string && negb (f =? "..")%string.



(** A component [normpath] keeps: not empty and without a slash. *)
Definition clean (c : string) : bool := truthy c && negb (contains "/" c).

(** The argument [abspath] hands to [normpath]. *)
Definition absolute (cwd path : string) : string :=
  if startswith path "/" then path else join cwd path.

(** The components of [os.path.abspath(path)], as [relpath] lists them. *)
Definition abs_comps (cwd path : string) : list string :=
  List.filter truthy (split_sep (abspath cwd path)).

(** [name] lies below (or is) [src]: its components are those of [src]
    followed by [rc]. *)
Definition below (cwd src name : string) (rc : list string) : Prop :=
  abs_comps cwd name = (abs_comps cwd src ++ rc)%list.


Definition is_skipped_line (line : string) : bool :=
  startswith line ("D" ++ tab).



(** The same options with another value of one of them. *)
Definition with_trim (opts : options.t) (trim : bool) : options.t :=
  {| options.basename := options.basename opts;
     options.remove_nonessential_files := trim;
     options.test_data := options.test_data opts;
     options.xz := options.xz opts;
     options.verbose := options.verbose opts;
     options.src_dir := options.src_dir opts;
     options.version := options.version opts |}.

Definition with_verbose (opts : options.t) (v : bool) : options.t :=
  {| options.basename := options.basename opts;
     options.remove_nonessential_files :=
       options.remove_nonessential_files opts;
     options.test_data := options.test_data opts;
     options.xz := options.xz opts;
     options.verbose := v;
     options.src_dir := options.src_dir opts;
     options.version := options.version opts |}.

Definition with_label (opts : options.t) (xz : bool) (version : string)
    : options.t :=
  {| options.basename := options.basename opts;
     options.remove_nonessential_files :=
       options.remove_nonessential_files opts;
     options.test_data := options.test_data opts;
     options.xz := xz;
     options.verbose := options.verbose opts;
     options.src_dir := options.src_dir opts;
     options.version := Some version |}.



End Walks.

(* ================================================================== *)
(** ** Basic facts *)

Import PyStr PosixPath Fs Run ExportTarball Props.
Local Open Scope run_scope.

Section NodeInduction.
Variable P : node -> Prop.
Hypothesis Hfile : forall st data, P (RegFile st data).
Hypothesis Hdir :
  forall st es, Forall (fun p => P (snd p)) es -> P (Directory st es).
Hypothesis Hlink :
  forall st l t, (forall x, t = Some x -> P x) -> P (SymLink st l t).

Fixpoint node_induction (n : node) : P n :=
  match n with
  | RegFile st data => Hfile st data
  | Directory st es =>
      Hdir st es
        ((fix go (l : list (string * node)) : Forall (fun p => P (snd p)) l :=
            match l with
            | [] => Forall_nil _
            | p :: l' => Forall_cons p (node_induction (snd p)) (go l')
            end) es)
  | SymLink st l t =>
      Hlink st l t
        (match t return forall x, t = Some x -> P x with
         | Some y => fun x e =>
             match e in _ = o
                   return match o with Some z => P z | None => True end
             with eq_refl => node_induction y end
         | None => fun x e =>
             match e in _ = o
                   return match o with Some z => P z | None => True end
             with eq_refl => I end
         end)
  end.
End NodeInduction.

Lemma trace_bind {A B} (m : M A) (k : A -> M B) :
  trace (Run.bind m k) =
  (trace m ++ match outcome m with Ok a => trace (k a) | Raise _ => [] end)%list.
Proof.
  destruct m as [t [a|e]]; simpl.
  - destruct (k a); reflexivity.
  - now rewrite app_nil_r.
Qed.

Lemma outcome_bind {A B} (m : M A) (k : A -> M B) :
  outcome (Run.bind m k) =
  match outcome m with Ok a => outcome (k a) | Raise e => Raise e end.
Proof.
  destruct m as [t [a|e]]; simpl; [destruct (k a)|]; reflexivity.
Qed.

Lemma members_app t1 t2 : members (t1 ++ t2) = (members t1 ++ members t2)%list.
Proof.
  induction t1 as [|[] t1 IH]; simpl; rewrite ?IH; reflexivity.
Qed.


Lemma outputs_app t1 t2 : outputs (t1 ++ t2) = (outputs t1 ++ outputs t2)%list.
Proof.
  induction t1 as [|[] t1 IH]; simpl; rewrite ?IH; reflexivity.
Qed.

Lemma members_report_skipped self name :
  members (trace (report_skipped self name)) = [].
Proof. unfold report_skipped; destruct (verbose self); reflexivity. Qed.

Lemma members_report_added self name :
  members (trace (report_added self name)) = [].
Proof. unfold report_added; destruct (verbose self); reflexivity. Qed.

Lemma outcome_report_added self name :
  outcome (report_added self name) = Ok tt.
Proof. unfold report_added; destruct (verbose self); reflexivity. Qed.

Lemma outcome_report_skipped self name :
  outcome (report_skipped self name) = Ok tt.
Proof. unfold report_skipped; destruct (verbose self); reflexivity. Qed.

(** [MyTarFile.add], with the inherited method unfolded. *)
Lemma add_eq cwd self name arcname n :
  add cwd self name arcname n =
  match add_decision cwd self name n with
  | Raise e => raise e
  | Ok EXCLUDE => report_skipped self name
  | Ok INCLUDE =>
      report_added self name ;;
      let tarinfo := filter self (TarFile.gettarinfo arcname n) in
      match n with
      | Directory _ es =>
          TarFile.addfile tarinfo None ;; add_entries cwd self name arcname es
      | _ => TarFile.addfile tarinfo (file_data n)
      end
  end.
Proof.
  destruct n as [st data|st es|st l t]; cbn [add]; try reflexivity.
  destruct (add_decision cwd self name (Directory st es)) as [[|]|e];
    try reflexivity.
  assert (Hloop : forall l,
    (fix loop (es : list (string * node)) : M unit :=
       match es with
       | [] => ret tt
       | (f, c) :: es' =>
           add cwd self (join name f) (join arcname f) c ;; loop es'
       end) l = add_entries cwd self name arcname l).
  { induction l as [|[f c] l IH]; [reflexivity|].
    cbn [add_entries]. rewrite IH. reflexivity. }
  unfold TarFile.add, Run.bind at 1 3.
  destruct (report_added self name) as [t [[]|e]]; [|reflexivity].
  unfold TarFile.addfile, emit, Run.bind.
  rewrite Hloop. reflexivity.
Qed.

(** An excluded entry is reported as skipped and nothing else happens. *)
Lemma add_excluded cwd self name arcname n :
  add_decision cwd self name n = Ok EXCLUDE ->
  add cwd self name arcname n = report_skipped self name /\
  members (trace (add cwd self name arcname n)) = [].
Proof.
  intros H. rewrite add_eq, H. split; [reflexivity|].
  apply members_report_skipped.
Qed.

(** An included entry is written first, filtered; a directory is then
    descended into. *)
Lemma add_included cwd self name arcname n :
  add_decision cwd self name n = Ok INCLUDE ->
  members (trace (add cwd self name arcname n)) =
  (filter self (TarFile.gettarinfo arcname n), file_data n) ::
  match n with
  | Directory _ es => members (trace (add_entries cwd self name arcname es))
  | _ => []
  end.
Proof.
  intros H. rewrite add_eq, H, trace_bind, members_app.
  rewrite members_report_added, outcome_report_added. cbn [app].
  destruct n as [st data|st es|st l t]; try reflexivity.
  cbv zeta. rewrite trace_bind, members_app. reflexivity.
Qed.

Lemma relpath_some cwd name start :
  truthy name = true -> exists rel_name, relpath cwd name start = Some rel_name.
Proof.
  intros H. unfold relpath. rewrite H. cbn [negb]. eexists; reflexivity.
Qed.

Lemma relpath_truthy cwd name start rel_name :
  relpath cwd name start = Some rel_name -> truthy name = true.
Proof.
  unfold relpath. destruct (truthy name); [reflexivity|discriminate].
Qed.

Lemma isfile_exists n : isfile n = true -> exists_ n = true.
Proof.
  unfold isfile, exists_. destruct (resolve n) as [[]|]; congruence.
Qed.

Lemma isfile_directory st es : isfile (Directory st es) = false.
Proof. reflexivity. Qed.

Lemma in_nonessential_dir_spec rel_name n :
  in_nonessential_dir rel_name n = true <->
  isfile n = true /\
  exists d, In d (nonessential_dirs ++ TEST_DIRS) /\ startswith rel_name d = true.
Proof.
  unfold in_nonessential_dir. rewrite existsb_exists. split.
  - intros (d & Hin & Hd). apply andb_true_iff in Hd as [Hp Hf].
    split; [exact Hf|]. exists d. split; assumption.
  - intros (Hf & d & Hin & Hp). exists d. split; [exact Hin|].
    now rewrite Hp, Hf.
Qed.

(* ================================================================== *)
(** ** Classification *)

(** C3. A symbolic link whose target does not exist is excluded, whatever
    the trim mode, its relative path and its base name are: no later rule
    is consulted, the entry is only reported as skipped, and nothing is
    written to the archive for it. *)
Theorem dangling_symlink_excluded cwd self name arcname n :
  islink n = true -> exists_ n = false ->
  add_decision cwd self name n = Ok EXCLUDE /\
  add cwd self name arcname n = report_skipped self name /\
  members (trace (add cwd self name arcname n)) = [].
Proof.
  intros Hl He.
  assert (H : add_decision cwd self name n = Ok EXCLUDE).
  { unfold add_decision. rewrite Hl, He. reflexivity. }
  split; [exact H|]. now apply add_excluded.
Qed.

Lemma dangling_symlink_excluded_witness :
  relpath "/work" "src/v8/test/torque/test-torque.tq" "src"
    = Some "v8/test/torque/test-torque.tq" /\
  mem "v8/test/torque/test-torque.tq" ESSENTIAL_FILES = true /\
  add_decision "/work" (Sample.archive true true)
    "src/v8/test/torque/test-torque.tq" Sample.dangling = Ok EXCLUDE /\
  add "/work" (Sample.archive true true) "src/v8/test/torque/test-torque.tq"
    "chromium/v8/test/torque/test-torque.tq" Sample.dangling
    = ([Print ("D" ++ tab ++ "src/v8/test/torque/test-torque.tq")], Ok tt) /\
  members (trace (add "/work" (Sample.archive true true)
                    "src/v8/test/torque/test-torque.tq"
                    "chromium/v8/test/torque/test-torque.tq"
                    Sample.dangling)) = [].
Proof.
  split; [reflexivity|]. split; [reflexivity|].
  apply (dangling_symlink_excluded "/work" (Sample.archive true true)
           "src/v8/test/torque/test-torque.tq"
           "chromium/v8/test/torque/test-torque.tq" Sample.dangling);
    reflexivity.
Defined.

(** C10. The trimmed-prefix test compares raw strings: in trim mode an
    entry that [os.path.isfile] accepts (a regular file), that is neither
    listed in [ESSENTIAL_FILES] nor carries a keep marker, and whose
    relative path begins with the characters of an entry of
    [nonessential_dirs] or [TEST_DIRS], is excluded; nothing asks for the
    prefix to end at a path component. *)
Theorem raw_prefix_excluded cwd self name arcname n rel_name file_path file_name d :
  remove_nonessential_files self = true ->
  isfile n = true ->
  relpath cwd name (src_dir self) = Some rel_name ->
  split name = (file_path, file_name) ->
  keep_file file_name rel_name = false ->
  In d (nonessential_dirs ++ TEST_DIRS) ->
  startswith rel_name d = true ->
  add_decision cwd self name n = Ok EXCLUDE /\
  members (trace (add cwd self name arcname n)) = [].
Proof.
  intros Hrm Hf Hrel Hsp Hk Hin Hp.
  assert (H : add_decision cwd self name n = Ok EXCLUDE).
  { unfold add_decision. rewrite Hrel, Hsp, Hrm, Hk.
    assert (Hd : in_nonessential_dir rel_name n = true).
    { apply in_nonessential_dir_spec. split; [exact Hf|].
      exists d. split; assumption. }
    rewrite Hd. cbn [negb andb].
    repeat match goal with
           | |- context [if ?b then _ else _] => destruct b
           end; reflexivity. }
  split; [exact H|]. now apply add_excluded with (arcname := arcname).
Qed.

Lemma raw_prefix_excluded_witness :
  split_sep "v8/testsuite/b.cc" = ["v8"; "testsuite"; "b.cc"] /\
  split_sep "v8/test" = ["v8"; "test"] /\
  add_decision "/work" (Sample.archive true false) "src/v8/testsuite/b.cc"
    (RegFile Sample.rw_stat "y") = Ok EXCLUDE /\
  members (trace (add "/work" (Sample.archive true false)
                    "src/v8/testsuite/b.cc" "chromium/v8/testsuite/b.cc"
                    (RegFile Sample.rw_stat "y"))) = [].
Proof.
  split; [reflexivity|]. split; [reflexivity|].
  apply (raw_prefix_excluded "/work" (Sample.archive true false)
           "src/v8/testsuite/b.cc" "chromium/v8/testsuite/b.cc"
           (RegFile Sample.rw_stat "y")
           "v8/testsuite/b.cc" "src/v8/testsuite" "b.cc" "v8/test");
    try reflexivity.
  simpl. tauto.
Defined.

(** C1, as worded, fails: a dangling symbolic link at a path listed in
    [ESSENTIAL_FILES] is excluded in a trimmed run. *)
Lemma essential_always_included_fails : ~ essential_always_included.
Proof.
  intros H.
  specialize (H "/work" (Sample.archive true false)
    "src/v8/test/torque/test-torque.tq" Sample.dangling
    "v8/test/torque/test-torque.tq" "src/v8/test/torque" "test-torque.tq"
    eq_refl eq_refl eq_refl eq_refl).
  vm_compute in H. discriminate H.
Qed.

(** The earlier rules also win over a keep marker: a compiled bytecode
    file and a change log are excluded although [.gyp] and [.gn] occur in
    their base names. *)
Example keep_marker_pyc_excluded :
  keep_file "gen.gyp.pyc" "build/gen.gyp.pyc" = true /\
  add_decision "/work" (Sample.archive true false) "src/build/gen.gyp.pyc"
    (RegFile Sample.rw_stat EmptyString) = Ok EXCLUDE /\
  keep_file "ChangeLog.gn" "tools/ChangeLog.gn" = true /\
  add_decision "/work" (Sample.archive true false) "src/tools/ChangeLog.gn"
    (RegFile Sample.rw_stat EmptyString) = Ok EXCLUDE.
Proof. repeat split; reflexivity. Qed.

(** [os.path.isfile] follows links: in a trimmed run a symbolic link to a
    regular file below a trimmed prefix is dropped like the file. *)
Example trimmed_symlink_to_file_excluded :
  add_decision "/work" (Sample.archive true false) "src/v8/test/alias.cc"
    (SymLink Sample.link_stat "a.cc" (Some (RegFile Sample.ro_stat "x")))
    = Ok EXCLUDE /\
  add_decision "/work" (Sample.archive false false) "src/v8/test/alias.cc"
    (SymLink Sample.link_stat "a.cc" (Some (RegFile Sample.ro_stat "x")))
    = Ok INCLUDE.
Proof. split; reflexivity. Qed.

(** C1, amended. In a trimmed run, an entry whose relative path is listed in
    [ESSENTIAL_FILES] or whose base name carries a keep marker, and which
    none of the earlier rules excludes (it is not a dangling link, not a
    [__pycache__] or [.pyc] entry, not a [.svn]/[out] entry outside
    [node_modules], not a [.git] entry outside the essential git
    directories, and [ChangeLog] does not occur in its path), is included
    and written to the archive, whether or not its relative path starts
    with an entry of [nonessential_dirs] or [TEST_DIRS]. *)
Theorem essential_included_after_earlier_rules
    cwd self name arcname n rel_name file_path file_name :
  remove_nonessential_files self = true ->
  relpath cwd name (src_dir self) = Some rel_name ->
  split name = (file_path, file_name) ->
  keep_file file_name rel_name = true ->
  islink n && negb (exists_ n) = false ->
  (file_name =? "__pycache__")%string || endswith file_name ".pyc" = false ->
  mem file_name [".svn"; "out"] && negb (contains "node_modules" file_path)
    = false ->
  (file_name =? ".git")%string
    && negb (existsb (startswith rel_name) ESSENTIAL_GIT_DIRS) = false ->
  contains "ChangeLog" name = false ->
  add_decision cwd self name n = Ok INCLUDE /\
  members (trace (add cwd self name arcname n)) =
    (filter self (TarFile.gettarinfo arcname n), file_data n) ::
    match n with
    | Directory _ es => members (trace (add_entries cwd self name arcname es))
    | _ => []
    end.
Proof.
  intros Hrm Hrel Hsp Hk H1 H2 H3 H4 H5.
  assert (H : add_decision cwd self name n = Ok INCLUDE).
  { unfold add_decision.
    rewrite H1, Hrel, Hsp, H2, H3, H4, Hrm, H5, Hk. reflexivity. }
  split; [exact H|]. now apply add_included.
Qed.

Lemma essential_included_after_earlier_rules_witness :
  startswith "v8/test/torque/test-torque.tq" "v8/test" = true /\
  add_decision "/work" (Sample.archive true false)
    "src/v8/test/torque/test-torque.tq"
    (RegFile Sample.ro_stat "namespace test {}") = Ok INCLUDE /\
  members (trace (add "/work" (Sample.archive true false)
                    "src/v8/test/torque/test-torque.tq"
                    "chromium/v8/test/torque/test-torque.tq"
                    (RegFile Sample.ro_stat "namespace test {}"))) =
    [({| Tar.name := "chromium/v8/test/torque/test-torque.tq";
         Tar.mode := 33188; Tar.uid := 0; Tar.gid := 0; Tar.size := 17;
         Tar.mtime := 1712345678; Tar.type := Tar.REGTYPE;
         Tar.linkname := EmptyString; Tar.uname := "0"; Tar.gname := "0" |},
      Some "namespace test {}")].
Proof.
  split; [reflexivity|].
  apply (essential_included_after_earlier_rules "/work"
           (Sample.archive true false) "src/v8/test/torque/test-torque.tq"
           "chromium/v8/test/torque/test-torque.tq"
           (RegFile Sample.ro_stat "namespace test {}")
           "v8/test/torque/test-torque.tq" "src/v8/test/torque"
           "test-torque.tq"); reflexivity.
Defined.

(** C2, as worded, fails: a [__pycache__] directory below the trimmed
    prefix [third_party/blink/tools] is excluded. *)
Lemma trimmed_directory_always_included_fails :
  ~ trimmed_directory_always_included.
Proof.
  intros H.
  assert (Hin : In "third_party/blink/tools" (nonessential_dirs ++ TEST_DIRS)).
  { cbn. tauto. }
  specialize (H "/work" (Sample.archive true false)
    "src/third_party/blink/tools/__pycache__" Sample.dir_stat []
    "third_party/blink/tools/__pycache__" "third_party/blink/tools"
    eq_refl eq_refl Hin eq_refl).
  vm_compute in H. discriminate H.
Qed.

(** C2, amended. In a trimmed run the loop over the trimmed prefixes never
    excludes a directory: a directory that none of the other rules
    excludes (it is not a [__pycache__] or [.pyc] entry, not a [.svn]/[out]
    entry outside [node_modules], not a [.git] entry outside the essential
    git directories, and [ChangeLog] does not occur in its path) is
    included, written as a directory member, and its entries are then
    visited in turn, wherever it lies.  An entry that only the trimming
    excludes (an untrimmed run includes it, and [ChangeLog] does not occur
    in its path) is one that [os.path.isfile] accepts. *)
Theorem trimmed_directory_kept
    cwd self name arcname st es rel_name file_path file_name :
  remove_nonessential_files self = true ->
  relpath cwd name (src_dir self) = Some rel_name ->
  split name = (file_path, file_name) ->
  (file_name =? "__pycache__")%string || endswith file_name ".pyc" = false ->
  mem file_name [".svn"; "out"] && negb (contains "node_modules" file_path)
    = false ->
  (file_name =? ".git")%string
    && negb (existsb (startswith rel_name) ESSENTIAL_GIT_DIRS) = false ->
  contains "ChangeLog" name = false ->
  add_decision cwd self name (Directory st es) = Ok INCLUDE /\
  add cwd self name arcname (Directory st es) =
    (report_added self name ;;
     TarFile.addfile
       (filter self (TarFile.gettarinfo arcname (Directory st es))) None ;;
     add_entries cwd self name arcname es) /\
  (forall name' n',
      add_decision cwd self name' n' = Ok EXCLUDE ->
      add_decision cwd (set_remove_nonessential_files self false) name' n'
        = Ok INCLUDE ->
      contains "ChangeLog" name' = false ->
      isfile n' = true).
Proof.
  intros Hrm Hrel Hsp H2 H3 H4 H5.
  assert (H : add_decision cwd self name (Directory st es) = Ok INCLUDE).
  { unfold add_decision. cbn [islink andb].
    rewrite Hrel, Hsp, H2, H3, H4, Hrm, H5.
    replace (in_nonessential_dir rel_name (Directory st es)) with false.
    - now rewrite andb_false_r.
    - symmetry. unfold in_nonessential_dir.
      induction (nonessential_dirs ++ TEST_DIRS)%list as [|x l IH];
        [reflexivity|].
      cbn [existsb]. rewrite isfile_directory, andb_false_r. exact IH. }
  split; [exact H|]. split.
  - rewrite add_eq, H. reflexivity.
  - intros name' n' He Hi Hc. revert He Hi.
    unfold add_decision. cbn [set_remove_nonessential_files
      remove_nonessential_files src_dir]. rewrite Hrm, Hc.
    destruct (islink n' && negb (exists_ n')); [discriminate|].
    destruct (relpath cwd name' (src_dir self)) as [rel'|]; [|discriminate].
    destruct (split name') as [fp fn].
    destruct ((fn =? "__pycache__")%string || endswith fn ".pyc");
      [discriminate|].
    destruct (mem fn [".svn"; "out"] && negb (contains "node_modules" fp));
      [discriminate|].
    destruct ((fn =? ".git")%string
              && negb (existsb (startswith rel') ESSENTIAL_GIT_DIRS));
      [discriminate|].
    destruct (negb (keep_file fn rel') && in_nonessential_dir rel' n') eqn:E;
      [|discriminate].
    intros _ _. apply andb_true_iff in E as [_ E].
    now apply in_nonessential_dir_spec in E.
Qed.

Lemma trimmed_directory_kept_witness :
  startswith "v8/test" "v8/test" = true /\
  add_decision "/work" (Sample.archive true true) "src/v8/test"
    (Directory Sample.dir_stat
       [("unittests", Directory Sample.dir_stat
                        [("a.cc", RegFile Sample.ro_stat "x")]);
        ("README", RegFile Sample.rw_stat "y")]) = Ok INCLUDE /\
  add "/work" (Sample.archive true true) "src/v8/test" "chromium/v8/test"
    (Directory Sample.dir_stat
       [("unittests", Directory Sample.dir_stat
                        [("a.cc", RegFile Sample.ro_stat "x")]);
        ("README", RegFile Sample.rw_stat "y")]) =
  ([Print ("A" ++ tab ++ "src/v8/test");
    AddFile {| Tar.name := "chromium/v8/test";
               Tar.mode := 16877; Tar.uid := 0; Tar.gid := 0; Tar.size := 0;
               Tar.mtime := 1712345678; Tar.type := Tar.DIRTYPE;
               Tar.linkname := EmptyString;
               Tar.uname := "0"; Tar.gname := "0" |} None;
    Print ("A" ++ tab ++ "src/v8/test/unittests");
    AddFile {| Tar.name := "chromium/v8/test/unittests";
               Tar.mode := 16877; Tar.uid := 0; Tar.gid := 0; Tar.size := 0;
               Tar.mtime := 1712345678; Tar.type := Tar.DIRTYPE;
               Tar.linkname := EmptyString;
               Tar.uname := "0"; Tar.gname := "0" |} None;
    Print ("D" ++ tab ++ "src/v8/test/unittests/a.cc");
    Print ("D" ++ tab ++ "src/v8/test/README")],
   Ok tt).
Proof.
  split; [reflexivity|].
  destruct (trimmed_directory_kept "/work" (Sample.archive true true)
              "src/v8/test" "chromium/v8/test" Sample.dir_stat
              [("unittests", Directory Sample.dir_stat
                               [("a.cc", RegFile Sample.ro_stat "x")]);
               ("README", RegFile Sample.rw_stat "y")]
              "v8/test" "src/v8" "test"
              eq_refl eq_refl eq_refl eq_refl eq_refl eq_refl eq_refl)
    as (Hd & Ha & _).
  split; [exact Hd|].
  rewrite Ha. reflexivity.
Defined.

(** C7, as worded, fails: the test is for the characters [node_modules]
    in the directory part of the path, not for a component of that name;
    [out] below [x_node_modules] is kept. *)
Lemma out_excluded_unless_component_fails : ~ out_excluded_unless_component.
Proof.
  intros H.
  assert (Hc : ~ In "node_modules" (split_sep "src/x_node_modules/out")).
  { cbn. intros [E|[E|[E|[]]]]; discriminate E. }
  specialize (H "/work" (Sample.archive false false)
    "src/x_node_modules/out" Sample.empty_dir
    "src/x_node_modules" "out" eq_refl eq_refl Hc).
  vm_compute in H. discriminate H.
Qed.

(** C7, amended. An entry whose base name is [.svn] or [out] is excluded
    when the characters [node_modules] do not occur in the directory part
    of the name given to [add]; when they occur there (as a substring, a
    component of that name or not, the source directory included), this
    rule lets the entry pass and the decision is that of the remaining
    rules: excluded as a dangling link, else by the trim rules in a
    trimmed run, else included. *)
Theorem out_excluded_unless_substring cwd self name n file_path file_name :
  split name = (file_path, file_name) ->
  mem file_name [".svn"; "out"] = true ->
  (contains "node_modules" file_path = false ->
   add_decision cwd self name n = Ok EXCLUDE) /\
  (contains "node_modules" file_path = true ->
   exists rel_name,
     relpath cwd name (src_dir self) = Some rel_name /\
     add_decision cwd self name n =
     Ok (if islink n && negb (exists_ n) then EXCLUDE
         else if remove_nonessential_files self
                 && (contains "ChangeLog" name
                     || negb (keep_file file_name rel_name)
                        && in_nonessential_dir rel_name n)
         then EXCLUDE else INCLUDE)).
Proof.
  intros Hsp Hm.
  assert (Hne : truthy name = true).
  { destruct name; [|reflexivity].
    cbv in Hsp. injection Hsp as _ <-. discriminate Hm. }
  destruct (relpath_some cwd name (src_dir self) Hne) as [rel_name Hrel].
  assert (Hfn : file_name = ".svn" \/ file_name = "out").
  { unfold mem in Hm. cbn [existsb] in Hm.
    rewrite orb_false_r in Hm. apply orb_true_iff in Hm as [E|E];
      apply String.eqb_eq in E; auto. }
  split.
  - intros Hc. unfold add_decision.
    destruct (islink n && negb (exists_ n)); [reflexivity|].
    rewrite Hrel, Hsp, Hm, Hc.
    destruct Hfn as [-> | ->]; reflexivity.
  - intros Hc. exists rel_name. split; [exact Hrel|].
    unfold add_decision.
    destruct (islink n && negb (exists_ n)); [reflexivity|].
    rewrite Hrel, Hsp, Hm, Hc.
    destruct Hfn as [-> | ->]; cbn [String.eqb Ascii.eqb Bool.eqb endswith orb andb negb];
      destruct (remove_nonessential_files self); cbn [andb];
      try reflexivity;
      destruct (contains "ChangeLog" name); cbn [orb]; try reflexivity;
      match goal with
      | |- context [negb ?a && ?b] => destruct (negb a && b); reflexivity
      end.
Qed.

Lemma out_excluded_unless_substring_witness :
  add_decision "/work" (Sample.archive false false) "src/out"
    Sample.empty_dir = Ok EXCLUDE /\
  add_decision "/work" (Sample.archive false false) "src/ui/.svn"
    Sample.empty_dir = Ok EXCLUDE /\
  add_decision "/work" (Sample.archive false false)
    "src/third_party/node/node_modules/lit/out" Sample.empty_dir
    = Ok INCLUDE.
Proof.
  split; [|split].
  - apply (proj1 (out_excluded_unless_substring "/work"
                    (Sample.archive false false) "src/out"
                    Sample.empty_dir "src" "out" eq_refl eq_refl)).
    reflexivity.
  - apply (proj1 (out_excluded_unless_substring "/work"
                    (Sample.archive false false) "src/ui/.svn"
                    Sample.empty_dir "src/ui" ".svn" eq_refl eq_refl)).
    reflexivity.
  - destruct (proj2 (out_excluded_unless_substring "/work"
                       (Sample.archive false false)
                       "src/third_party/node/node_modules/lit/out"
                       Sample.empty_dir
                       "src/third_party/node/node_modules/lit"
                       "out" eq_refl eq_refl) eq_refl) as (rel & _ & H).
    exact H.
Defined.

(* ================================================================== *)
(** ** The walk *)

Lemma join_truthy a b : truthy a = true -> truthy (join a b) = true.
Proof.
  intros Ha. unfold join.
  destruct (startswith b "/") eqn:Eb.
  - destruct b; [discriminate Eb|reflexivity].
  - destruct a; [discriminate Ha|].
    destruct (negb (truthy (String a a0)) || endswith (String a a0) "/");
      reflexivity.
Qed.

Lemma add_decision_ok cwd self name n :
  truthy name = true -> exists d, add_decision cwd self name n = Ok d.
Proof.
  intros H. destruct (relpath_some cwd name (src_dir self) H) as [rel Hrel].
  unfold add_decision. rewrite Hrel.
  destruct (split name) as [fp fn].
  repeat match goal with
         | |- context [if ?b then _ else _] => destruct b
         end; eexists; reflexivity.
Qed.

(** A walk from a non-empty name raises nothing. *)
Lemma add_outcome cwd self n :
  forall name arcname,
    truthy name = true -> outcome (add cwd self name arcname n) = Ok tt.
Proof.
  induction n as [st data|st es IH|st l t _] using node_induction;
    intros name arcname Hne; rewrite add_eq;
    match goal with
    | |- context [add_decision cwd self name ?x] =>
        destruct (add_decision_ok cwd self name x Hne) as [[|] ->]
    end;
    try apply outcome_report_skipped;
    rewrite outcome_bind, outcome_report_added; try reflexivity.
  cbv zeta. rewrite outcome_bind. cbn [outcome TarFile.addfile emit snd].
  induction IH as [|[f c] es Hc _ IHes]; [reflexivity|].
  cbn [add_entries]. rewrite outcome_bind.
  cbn [snd] in Hc. rewrite Hc by now apply join_truthy. exact IHes.
Qed.

Lemma add_entries_outcome cwd self name arcname es :
  truthy name = true ->
  outcome (add_entries cwd self name arcname es) = Ok tt.
Proof.
  intros Hne. induction es as [|[f c] es IH]; [reflexivity|].
  cbn [add_entries]. rewrite outcome_bind, add_outcome by now apply join_truthy.
  exact IH.
Qed.

Lemma forallb_walk_report_skipped self name :
  forallb walk_event (trace (report_skipped self name)) = true.
Proof. unfold report_skipped; destruct (verbose self); reflexivity. Qed.

Lemma forallb_walk_report_added self name :
  forallb walk_event (trace (report_added self name)) = true.
Proof. unfold report_added; destruct (verbose self); reflexivity. Qed.

(** A walk only prints and adds members. *)
Lemma add_walk_events cwd self n :
  forall name arcname,
    forallb walk_event (trace (add cwd self name arcname n)) = true.
Proof.
  induction n as [st data|st es IH|st l t _] using node_induction;
    intros name arcname; rewrite add_eq;
    (destruct (add_decision cwd self name _) as [[|]|e];
     [|apply forallb_walk_report_skipped|reflexivity]);
    rewrite trace_bind, forallb_app, forallb_walk_report_added,
      outcome_report_added; try reflexivity.
  cbv zeta. rewrite trace_bind, forallb_app. cbn [andb].
  cbn [trace outcome TarFile.addfile emit fst snd forallb walk_event andb].
  induction IH as [|[f c] es Hc _ IHes]; [reflexivity|].
  cbn [add_entries]. rewrite trace_bind, forallb_app.
  cbn [snd] in Hc. rewrite Hc. cbn [andb].
  destruct (outcome (add cwd self (join name f) (join arcname f) c));
    [exact IHes|reflexivity].
Qed.


(* ================================================================== *)
(** ** The stages of [main] *)

Lemma bind_ext {A B} (m : M A) (k1 k2 : A -> M B) :
  (forall a, k1 a = k2 a) -> Run.bind m k1 = Run.bind m k2.
Proof.
  intros H. destruct m as [t [a|e]]; [|reflexivity].
  unfold Run.bind. now rewrite H.
Qed.

Lemma read_text_cases w p :
  (exists text, read_text w p = ([ReadFile p], Ok text)) \/
  read_text w p = ([], Raise OSError).
Proof.
  unfold read_text.
  destruct (os_lstat w p) as [n|]; [|now right].
  destruct (resolve n) as [[st data|st es|st l t]|]; try now right.
  left. exists data. reflexivity.
Qed.

Lemma path_exists_truthy w p : path_exists w p = true -> truthy p = true.
Proof.
  unfold path_exists, os_lstat. destruct (truthy p); [reflexivity|discriminate].
Qed.

Lemma path_exists_lstat w p :
  path_exists w p = true -> exists n, os_lstat w p = Some n.
Proof.
  unfold path_exists. destruct (os_lstat w p) as [n|]; [|discriminate].
  intros _. now exists n.
Qed.

Lemma add_test_dirs_outcome w self output_basename dirs :
  truthy (src_dir self) = true ->
  outcome (add_test_dirs w self output_basename dirs) = Ok tt.
Proof.
  intros Hne. induction dirs as [|d dirs IH]; [reflexivity|].
  cbn [add_test_dirs]. rewrite outcome_bind.
  replace (outcome _) with (@Ok unit tt); [exact IH|].
  unfold path_isdir, add_path.
  destruct (os_lstat w (join (src_dir self) d)) as [n|]; [|reflexivity].
  destruct (isdir n); [|reflexivity]. cbn [negb].
  symmetry. apply add_outcome. now apply join_truthy.
Qed.

(** Once the walk is reached it runs to its end. *)
Lemma walk_outcome w opts src arg0 ts :
  path_exists w src = true -> outcome (walk w opts src arg0 ts) = Ok tt.
Proof.
  intros Hex. unfold walk. destruct (options.test_data opts).
  - apply add_test_dirs_outcome. exact (path_exists_truthy _ _ Hex).
  - unfold add_path. destruct (path_exists_lstat _ _ Hex) as [n ->].
    apply add_outcome. exact (path_exists_truthy _ _ Hex).
Qed.

(** The whole run, when it reaches the walk. *)
Lemma main_walk w opts args arg0 src c ts :
  reaches_walk w opts args arg0 src c ts ->
  main w opts args =
  (([OpenOutput (arg0 ++ ".tar.xz");
     Popen ["xz"; "-T"; "0"; "-9"; "-"];
     ReadFile (timestamp_file src)]
    ++ trace (walk w opts src arg0 ts)
    ++ [CloseArchive; CloseStdin;
        if c =? 0 then CloseOutput else Print "xz -9 failed!"])%list,
   Ok (if c =? 0 then 0 else 1)).
Proof.
  intros (-> & (v & Hv & Htv) & Hs & Hex & Hw & Hxz & text & Hr & Hi).
  pose proof (walk_outcome w opts src arg0 ts Hex) as Ho.
  unfold main. rewrite Hv, Htv, Hs, Hex. cbn [negb].
  unfold open_w, popen, int. rewrite Hw, Hxz.
  unfold timestamp_file in Hr. cbn [Run.bind emit]. rewrite Hr.
  cbn [Run.bind app]. rewrite Hi. cbn [Run.bind ret app].
  unfold walk, archive_of, output_basename_of in Ho |- *.
  match goal with
  | |- context [try_finally ?b _] => destruct b as [t [[]|e]]
  end; [|discriminate Ho].
  cbn [try_finally emit Run.bind trace fst app ret].
  destruct (c =? 0); cbn [negb Run.bind emit ret app];
    rewrite ?app_nil_r, <- ?app_assoc; reflexivity.
Qed.


Lemma main_walk_members w opts args arg0 src c ts :
  reaches_walk w opts args arg0 src c ts ->
  members (trace (main w opts args)) = members (trace (walk w opts src arg0 ts)).
Proof.
  intros H. rewrite (main_walk _ _ _ _ _ _ _ H).
  cbn [trace fst]. rewrite !members_app. cbn [members app].
  destruct (c =? 0); cbn [members]; now rewrite app_nil_r.
Qed.

Lemma reaches_walk_unique w opts args arg0 src c ts arg0' src' c' ts' :
  reaches_walk w opts args arg0 src c ts ->
  reaches_walk w opts args arg0' src' c' ts' ->
  arg0 = arg0' /\ src = src' /\ c = c' /\ ts = ts'.
Proof.
  intros (-> & _ & Hs & _ & _ & Hxz & text & Hr & Hi)
         (E & _ & Hs' & _ & _ & Hxz' & text' & Hr' & Hi').
  injection E as <-. rewrite Hs in Hs'. injection Hs' as <-.
  rewrite Hxz in Hxz'. injection Hxz' as <-.
  rewrite Hr in Hr'. injection Hr' as <-.
  rewrite Hi in Hi'. injection Hi' as <-. auto.
Qed.



Lemma walk_events_no_output t : forallb walk_event t = true -> outputs t = [].
Proof.
  induction t as [|[] t IH]; cbn; try discriminate; auto.
Qed.

Lemma add_test_dirs_walk_events w self output_basename dirs :
  forallb walk_event (trace (add_test_dirs w self output_basename dirs)) = true.
Proof.
  induction dirs as [|d dirs IH]; [reflexivity|].
  cbn [add_test_dirs]. rewrite trace_bind, forallb_app.
  apply andb_true_iff. split.
  - unfold add_path. destruct (path_isdir w _); cbn [negb]; [|reflexivity].
    destruct (os_lstat w _); [apply add_walk_events|reflexivity].
  - destruct (outcome _); [exact IH|reflexivity].
Qed.

Lemma walk_walk_events w opts src arg0 ts :
  forallb walk_event (trace (walk w opts src arg0 ts)) = true.
Proof.
  unfold walk. destruct (options.test_data opts).
  - apply add_test_dirs_walk_events.
  - unfold add_path. destruct (os_lstat w src);
      [apply add_walk_events|reflexivity].
Qed.





(* ================================================================== *)
(** ** Normalised metadata *)



(* ================================================================== *)
(** ** Failures and exit codes *)





Example missing_timestamp_run :
  main Sample.world_without_timestamp Sample.full_opts ["/tmp/chromium-124"]
  = ([OpenOutput "/tmp/chromium-124.tar.xz";
      Popen ["xz"; "-T"; "0"; "-9"; "-"]],
     Raise OSError).
Proof. reflexivity. Qed.






(* ================================================================== *)
(** ** Test-data mode *)

Lemma prefix_refl s : String.prefix s s = true.
Proof.
  induction s as [|a s IH]; [reflexivity|].
  cbn. destruct (ascii_dec a a); [exact IH|contradiction].
Qed.

Lemma prefix_nil s : String.prefix EmptyString s = true.
Proof. destruct s; reflexivity. Qed.

Lemma prefix_trans a : forall b c,
  String.prefix a b = true -> String.prefix b c = true ->
  String.prefix a c = true.
Proof.
  induction a as [|x a IH]; intros b c Hab Hbc; [apply prefix_nil|].
  destruct b as [|y b]; [discriminate Hab|].
  destruct c as [|z c]; [discriminate Hbc|].
  cbn in *. destruct (ascii_dec x y) as [->|]; [|discriminate Hab].
  destruct (ascii_dec y z) as [->|]; [|discriminate Hbc].
  now apply IH with (b := b).
Qed.

Lemma prefix_app a b : String.prefix a (a ++ b) = true.
Proof.
  induction a as [|x a IH]; [apply prefix_nil|].
  cbn. destruct (ascii_dec x x); [exact IH|contradiction].
Qed.

Lemma lstrip_sep_prefix_app a b :
  String.prefix (lstrip_sep a) (lstrip_sep (a ++ b)) = true.
Proof.
  induction a as [|x a IH]; [apply prefix_nil|].
  cbn [lstrip_sep append]. destruct (Ascii.eqb x sep); [exact IH|].
  apply (prefix_app (String x a)).
Qed.

(** What [join] appends when its second argument is relative. *)
Lemma join_relative a b :
  startswith b "/" = false -> exists x, join a b = a ++ x.
Proof.
  intros H. unfold join. rewrite H.
  destruct (negb (truthy a) || endswith a "/"); eexists; reflexivity.
Qed.

Lemma lstrip_sep_prefix_join a b :
  startswith b "/" = false ->
  String.prefix (lstrip_sep a) (lstrip_sep (join a b)) = true.
Proof.
  intros H. destruct (join_relative a b H) as [x ->].
  apply lstrip_sep_prefix_app.
Qed.

Lemma no_slash_relative f : contains "/" f = false -> startswith f "/" = false.
Proof.
  unfold startswith. destruct f as [|c f]; [reflexivity|].
  cbn [contains]. intros H. now apply orb_false_iff in H as [H _].
Qed.

(** The members a walk writes are named below the archive name it was
    given. *)
Lemma add_names_rooted cwd self n :
  forall name arcname ti data,
    wf_node n = true ->
    In (ti, data) (members (trace (add cwd self name arcname n))) ->
    startswith (Tar.name ti) (lstrip_sep arcname) = true.
Proof.
  induction n as [st data0|st es IH|st l t _] using node_induction;
    intros name arcname ti data Hwf Hin;
    match type of Hin with
    | context [add cwd self name arcname ?x] =>
        destruct (add_decision cwd self name x) as [[|]|e] eqn:Hd
    end;
    [ rewrite (add_included _ _ _ _ _ Hd) in Hin
    | rewrite (proj2 (add_excluded _ _ _ arcname _ Hd)) in Hin; destruct Hin
    | rewrite add_eq, Hd in Hin; destruct Hin
    | rewrite (add_included _ _ _ _ _ Hd) in Hin
    | rewrite (proj2 (add_excluded _ _ _ arcname _ Hd)) in Hin; destruct Hin
    | rewrite add_eq, Hd in Hin; destruct Hin
    | rewrite (add_included _ _ _ _ _ Hd) in Hin
    | rewrite (proj2 (add_excluded _ _ _ arcname _ Hd)) in Hin; destruct Hin
    | rewrite add_eq, Hd in Hin; destruct Hin ].
  - destruct Hin as [E|[]]. injection E as <- <-. apply prefix_refl.
  - destruct Hin as [E|Hin]; [injection E as <- <-; apply prefix_refl|].
    clear Hd. cbn [wf_node] in Hwf.
    induction IH as [|[f c] es' Hc _ IHes]; [destruct Hin|].
    apply andb_true_iff in Hwf as [Hwf Hrest].
    apply andb_true_iff in Hwf as [Hwf Hwc].
    apply andb_true_iff in Hwf as [_ Hf]. apply negb_true_iff in Hf.
    cbn [add_entries] in Hin. rewrite trace_bind, members_app in Hin.
    apply in_app_or in Hin as [Hin|Hin].
    + cbn [snd] in Hc. specialize (Hc _ _ _ _ Hwc Hin).
      unfold startswith in *.
      apply prefix_trans with (b := lstrip_sep (join arcname f)); [|exact Hc].
      apply lstrip_sep_prefix_join. now apply no_slash_relative.
    + destruct (outcome (add cwd self (join name f) (join arcname f) c));
        [|destruct Hin].
      now apply IHes.
  - destruct Hin as [E|[]]. injection E as <- <-. apply prefix_refl.
Qed.






(* ================================================================== *)
(** ** Reproducibility *)

Lemma map_stat_directory f st es :
  map_stat f (Directory st es) =
  Directory (f st) (map (fun p => (fst p, map_stat f (snd p))) es).
Proof.
  cbn [map_stat]. f_equal.
  induction es as [|[name c] es IH]; [reflexivity|].
  cbn [map fst snd]. now rewrite IH.
Qed.

Lemma resolve_map_stat f n :
  resolve (map_stat f n) = option_map (map_stat f) (resolve n).
Proof.
  induction n as [st data|st es _|st l t IH] using node_induction;
    try reflexivity.
  destruct t as [x|]; [|reflexivity].
  cbn [map_stat resolve]. now apply IH.
Qed.

Lemma islink_map_stat f n : islink (map_stat f n) = islink n.
Proof. destruct n; reflexivity. Qed.

Lemma exists_map_stat f n : exists_ (map_stat f n) = exists_ n.
Proof.
  unfold exists_. rewrite resolve_map_stat. now destruct (resolve n).
Qed.

Lemma isfile_map_stat f n : isfile (map_stat f n) = isfile n.
Proof.
  unfold isfile. rewrite resolve_map_stat. now destruct (resolve n) as [[]|].
Qed.

Lemma isdir_map_stat f n : isdir (map_stat f n) = isdir n.
Proof.
  unfold isdir. rewrite resolve_map_stat. now destruct (resolve n) as [[]|].
Qed.

Lemma add_decision_map_stat cwd self name f n :
  add_decision cwd self name (map_stat f n) = add_decision cwd self name n.
Proof.
  unfold add_decision, in_nonessential_dir.
  now rewrite islink_map_stat, exists_map_stat, isfile_map_stat.
Qed.

(** [MyTarFile.__filter] overwrites all that [scrub_stat] forgets. *)
Lemma filter_gettarinfo_map_stat self arcname f n :
  (forall st, st_mode (f st) = st_mode st) ->
  filter self (TarFile.gettarinfo arcname (map_stat f n)) =
  filter self (TarFile.gettarinfo arcname n).
Proof.
  intros Hf. destruct n as [st data|st es|st l t];
    unfold filter, TarFile.gettarinfo; cbn; now rewrite Hf.
Qed.

Lemma file_data_map_stat f n : file_data (map_stat f n) = file_data n.
Proof. destruct n; reflexivity. Qed.

(** The walk does not look at owners, groups or modification times. *)
Lemma add_map_stat cwd self f n :
  (forall st, st_mode (f st) = st_mode st) ->
  forall name arcname,
    add cwd self name arcname (map_stat f n) = add cwd self name arcname n.
Proof.
  intros Hf.
  induction n as [st data|st es IH|st l t _] using node_induction;
    intros name arcname; rewrite !add_eq, add_decision_map_stat;
    match goal with
    | |- context [add_decision cwd self name ?x] =>
        destruct (add_decision cwd self name x) as [[|]|e]
    end; try reflexivity; apply bind_ext; intros _.
  - now rewrite filter_gettarinfo_map_stat.
  - rewrite filter_gettarinfo_map_stat by exact Hf.
    rewrite map_stat_directory. cbv zeta. apply bind_ext. intros _.
    induction IH as [|[fn c] es' Hc _ IHes]; [reflexivity|].
    cbn [map add_entries fst snd]. cbn [snd] in Hc. rewrite Hc.
    apply bind_ext. intros _. exact IHes.
  - rewrite filter_gettarinfo_map_stat by exact Hf.
    now destruct t.
Qed.

Lemma add_same_tree cwd self name arcname n1 n2 :
  same_tree n1 n2 ->
  add cwd self name arcname n1 = add cwd self name arcname n2.
Proof.
  intros H.
  rewrite <- (add_map_stat cwd self scrub_stat n1) by reflexivity.
  rewrite <- (add_map_stat cwd self scrub_stat n2) by reflexivity.
  unfold same_tree, scrub in H. now rewrite H.
Qed.

Lemma exists_same_tree n1 n2 : same_tree n1 n2 -> exists_ n1 = exists_ n2.
Proof.
  intros H. rewrite <- (exists_map_stat scrub_stat n1).
  rewrite <- (exists_map_stat scrub_stat n2).
  unfold same_tree, scrub in H. now rewrite H.
Qed.

Lemma isdir_same_tree n1 n2 : same_tree n1 n2 -> isdir n1 = isdir n2.
Proof.
  intros H. rewrite <- (isdir_map_stat scrub_stat n1).
  rewrite <- (isdir_map_stat scrub_stat n2).
  unfold same_tree, scrub in H. now rewrite H.
Qed.

(** The text of the regular file a path leads to. *)
Lemma read_text_eq w p :
  read_text w p =
  match os_lstat w p with
  | Some n =>
      match resolve n with
      | Some (RegFile _ data) => ([ReadFile p], Ok data)
      | _ => ([], Raise OSError)
      end
  | None => ([], Raise OSError)
  end.
Proof.
  unfold read_text. destruct (os_lstat w p) as [n|]; [|reflexivity].
  destruct (resolve n) as [[]|]; reflexivity.
Qed.

Lemma regfile_same_tree n1 n2 :
  same_tree n1 n2 ->
  match resolve n1 with Some (RegFile _ data) => Some data | _ => None end =
  match resolve n2 with Some (RegFile _ data) => Some data | _ => None end.
Proof.
  intros H. unfold same_tree, scrub in H.
  apply (f_equal resolve) in H. rewrite !resolve_map_stat in H.
  destruct (resolve n1) as [[]|], (resolve n2) as [[]|];
    cbn [option_map map_stat] in H; try discriminate H; try reflexivity.
  now injection H as _ ->.
Qed.

Section SameWorld.
Variables w1 w2 : world.
Hypothesis Hsame : same_world w1 w2.

Lemma os_lstat_same p :
  match os_lstat w1 p, os_lstat w2 p with
  | Some n1, Some n2 => same_tree n1 n2
  | None, None => True
  | _, _ => False
  end.
Proof.
  destruct Hsame as (_ & _ & _ & H). unfold os_lstat.
  destruct (truthy p); [apply H|exact I].
Qed.

Lemma path_exists_same p : path_exists w1 p = path_exists w2 p.
Proof.
  unfold path_exists. pose proof (os_lstat_same p) as H.
  destruct (os_lstat w1 p), (os_lstat w2 p); try contradiction;
    [now apply exists_same_tree|reflexivity].
Qed.

Lemma path_isdir_same p : path_isdir w1 p = path_isdir w2 p.
Proof.
  unfold path_isdir. pose proof (os_lstat_same p) as H.
  destruct (os_lstat w1 p), (os_lstat w2 p); try contradiction;
    [now apply isdir_same_tree|reflexivity].
Qed.

Lemma read_text_same p : read_text w1 p = read_text w2 p.
Proof.
  rewrite !read_text_eq. pose proof (os_lstat_same p) as H.
  destruct (os_lstat w1 p) as [n1|], (os_lstat w2 p) as [n2|];
    try contradiction; [|reflexivity].
  apply regfile_same_tree in H.
  destruct (resolve n1) as [[]|], (resolve n2) as [[]|];
    try discriminate H; try reflexivity.
  now injection H as ->.
Qed.

Lemma add_path_same self path arcname :
  add_path w1 self path arcname = add_path w2 self path arcname.
Proof.
  unfold add_path. pose proof (os_lstat_same path) as H.
  destruct Hsame as (-> & _).
  destruct (os_lstat w1 path), (os_lstat w2 path); try contradiction;
    [now apply add_same_tree|reflexivity].
Qed.

Lemma add_test_dirs_same self output_basename dirs :
  add_test_dirs w1 self output_basename dirs =
  add_test_dirs w2 self output_basename dirs.
Proof.
  induction dirs as [|d dirs IH]; [reflexivity|].
  cbn [add_test_dirs]. rewrite path_isdir_same, add_path_same.
  apply bind_ext. intros _. exact IH.
Qed.

Lemma main_same opts args : main w1 opts args = main w2 opts args.
Proof.
  unfold main.
  destruct args as [|arg0 [|]]; try reflexivity.
  destruct (negb _); [reflexivity|].
  destruct (options.src_dir opts) as [src|]; [|reflexivity].
  rewrite path_exists_same.
  destruct (negb (path_exists w2 src)); [reflexivity|].
  unfold open_w, popen.
  destruct Hsame as (_ & Hw & Hxz & _). rewrite Hw, Hxz.
  apply bind_ext. intros _. apply bind_ext. intros _.
  rewrite read_text_same.
  apply bind_ext. intros text. apply bind_ext. intros timestamp.
  now rewrite add_test_dirs_same, add_path_same.
Qed.
End SameWorld.

(** C9. Two runs with the same options and arguments, over environments
    that show the same source tree (the same names in the same order, the
    same kinds, permission bits, contents and link targets, hence the same
    timestamp file; owners, groups, their names and modification times may
    differ), write the same members to the archive stream, in the same
    order and with the same header fields and data; they also print the
    same lines and end the same way. *)
Theorem reproducible_archive w1 w2 opts args :
  same_world w1 w2 ->
  members (trace (main w1 opts args)) = members (trace (main w2 opts args)) /\
  main w1 opts args = main w2 opts args.
Proof.
  intros H. now rewrite (main_same w1 w2 H).
Qed.

Lemma map_stat_same_tree f n :
  (forall st, st_mode (f st) = st_mode st) -> same_tree (map_stat f n) n.
Proof.
  intros Hf. unfold same_tree, scrub.
  induction n as [st data|st es IH|st l t IH] using node_induction.
  - cbn. unfold scrub_stat. now rewrite Hf.
  - rewrite !map_stat_directory. f_equal.
    + unfold scrub_stat. now rewrite Hf.
    + rewrite map_map. cbn [fst snd].
      induction IH as [|[name c] es' Hc _ IHes]; [reflexivity|].
      cbn [map fst snd]. cbn [snd] in Hc. now rewrite Hc, IHes.
  - destruct t as [x|]; cbn [map_stat].
    + rewrite (IH x eq_refl). unfold scrub_stat. now rewrite Hf.
    + unfold scrub_stat. now rewrite Hf.
Qed.

Lemma second_checkout_same_world w :
  same_world (Sample.second_checkout w) w.
Proof.
  split; [reflexivity|]. split; [reflexivity|]. split; [reflexivity|].
  intros p. cbn [Sample.second_checkout lstat].
  destruct (lstat w p) as [n|]; [|exact I].
  cbn [option_map]. now apply map_stat_same_tree.
Qed.

Lemma reproducible_archive_witness :
  lstat (Sample.second_checkout Sample.the_world) "src/v8/BUILD.gn"
    = Some (RegFile (Sample.other_owner Sample.rw_stat) "group") /\
  lstat Sample.the_world "src/v8/BUILD.gn"
    = Some (RegFile Sample.rw_stat "group") /\
  members (trace (main (Sample.second_checkout Sample.the_world)
                    Sample.full_opts ["/tmp/chromium-124"])) =
  members (trace (main Sample.the_world Sample.full_opts
                    ["/tmp/chromium-124"])).
Proof.
  split; [reflexivity|]. split; [reflexivity|].
  apply (reproducible_archive (Sample.second_checkout Sample.the_world)
           Sample.the_world Sample.full_opts ["/tmp/chromium-124"]
           (second_checkout_same_world Sample.the_world)).
Defined.

(* ================================================================== *)
(** ** Further properties of the classification *)

Import Walks.

Lemma split_truthy name file_path file_name :
  split name = (file_path, file_name) -> truthy file_name = true ->
  truthy name = true.
Proof.
  intros Hsp Hf. destruct name; [|reflexivity].
  cbv in Hsp. injection Hsp as _ <-. discriminate Hf.
Qed.

Lemma contains_truthy sub s :
  truthy sub = true -> contains sub s = true -> truthy s = true.
Proof.
  intros Hsub H. destruct s; [|reflexivity].
  destruct sub; [discriminate Hsub|discriminate H].
Qed.

(** Two prefixes of one string: one is a prefix of the other. *)
Lemma prefix_comparable s : forall a b,
  String.prefix a s = true -> String.prefix b s = true ->
  String.prefix a b = true \/ String.prefix b a = true.
Proof.
  induction s as [|c s IH]; intros a b Ha Hb.
  - destruct a; [|discriminate Ha]. left. apply prefix_nil.
  - destruct a as [|x a]; [left; apply prefix_nil|].
    destruct b as [|y b]; [right; apply prefix_nil|].
    cbn in Ha, Hb |- *.
    destruct (ascii_dec x c) as [->|]; [|discriminate Ha].
    destruct (ascii_dec y c) as [->|]; [|discriminate Hb].
    destruct (ascii_dec c c); [|contradiction].
    now apply IH.
Qed.

(** X1. An entry whose base name is [__pycache__] or ends in [.pyc] is
    excluded in every mode, whatever its relative path, its keep markers
    and its kind are; [add] only reports it as skipped, so nothing below
    such a directory is looked at. *)
Theorem cache_entries_excluded cwd self name arcname n file_path file_name :
  split name = (file_path, file_name) ->
  (file_name =? "__pycache__")%string || endswith file_name ".pyc" = true ->
  add_decision cwd self name n = Ok EXCLUDE /\
  add cwd self name arcname n = report_skipped self name.
Proof.
  intros Hsp Hc.
  assert (Hne : truthy name = true).
  { apply (split_truthy _ _ _ Hsp). destruct file_name; [discriminate Hc|reflexivity]. }
  destruct (relpath_some cwd name (src_dir self) Hne) as [rel Hrel].
  assert (H : add_decision cwd self name n = Ok EXCLUDE).
  { unfold add_decision. rewrite Hrel, Hsp, Hc.
    destruct (islink n && negb (exists_ n)); reflexivity. }
  split; [exact H|]. now apply add_excluded.
Qed.

Lemma cache_entries_excluded_witness :
  add_decision "/work" (Sample.archive false true)
    "src/third_party/node/node_modules/lit/tools/gen.gyp.pyc"
    (RegFile Sample.rw_stat "x") = Ok EXCLUDE /\
  add "/work" (Sample.archive false true)
    "src/tools/__pycache__" "chromium/tools/__pycache__"
    (Directory Sample.dir_stat [("BUILD.gn", RegFile Sample.rw_stat "x")])
  = ([Print ("D" ++ tab ++ "src/tools/__pycache__")], Ok tt).
Proof.
  split.
  - apply (cache_entries_excluded "/work" (Sample.archive false true)
             "src/third_party/node/node_modules/lit/tools/gen.gyp.pyc"
             EmptyString (RegFile Sample.rw_stat "x")
             "src/third_party/node/node_modules/lit/tools" "gen.gyp.pyc");
      reflexivity.
  - apply (cache_entries_excluded "/work" (Sample.archive false true)
             "src/tools/__pycache__" "chromium/tools/__pycache__"
             (Directory Sample.dir_stat [("BUILD.gn", RegFile Sample.rw_stat "x")])
             "src/tools" "__pycache__"); reflexivity.
Defined.

Lemma rust_src_not_trimmed rel_name n :
  startswith rel_name "third_party/rust-src/" = true ->
  in_nonessential_dir rel_name n = false /\ mem rel_name ESSENTIAL_FILES = false.
Proof.
  intros H. split.
  - destruct (in_nonessential_dir rel_name n) eqn:E; [|reflexivity].
    exfalso. apply in_nonessential_dir_spec in E as (_ & d & Hin & Hd).
    unfold startswith in H, Hd.
    destruct (prefix_comparable _ _ _ H Hd) as [Hc|Hc];
      cbn in Hin;
      repeat (destruct Hin as [<-|Hin]; [discriminate Hc|]); destruct Hin.
  - destruct (mem rel_name ESSENTIAL_FILES) eqn:E; [|reflexivity].
    exfalso. unfold mem in E. apply existsb_exists in E as (x & Hin & Hx).
    apply String.eqb_eq in Hx. subst x. cbn in Hin.
    repeat (destruct Hin as [<-|Hin]; [discriminate H|]). destruct Hin.
Qed.

(** X2. An entry whose base name is [.git] is excluded in every mode
    unless its relative path starts with [third_party/rust-src/]; there,
    unless it is a dangling link or [ChangeLog] occurs in its name, it is
    included, in a trimmed run too. *)
Theorem git_metadata_rule cwd self name n file_path rel_name :
  split name = (file_path, ".git") ->
  relpath cwd name (src_dir self) = Some rel_name ->
  (startswith rel_name "third_party/rust-src/" = false ->
   add_decision cwd self name n = Ok EXCLUDE) /\
  (startswith rel_name "third_party/rust-src/" = true ->
   islink n && negb (exists_ n) = false ->
   contains "ChangeLog" name = false ->
   add_decision cwd self name n = Ok INCLUDE).
Proof.
  intros Hsp Hrel. split.
  - intros Hs. unfold add_decision. rewrite Hrel, Hsp.
    cbn [ESSENTIAL_GIT_DIRS existsb]. rewrite Hs.
    destruct (islink n && negb (exists_ n)); reflexivity.
  - intros Hs Hd Hc. unfold add_decision. rewrite Hd, Hrel, Hsp, Hc.
    cbn [ESSENTIAL_GIT_DIRS existsb]. rewrite Hs.
    destruct (rust_src_not_trimmed rel_name n Hs) as [Ht _]. rewrite Ht.
    destruct (remove_nonessential_files self); cbn;
      rewrite ?andb_false_r; reflexivity.
Qed.

Lemma git_metadata_rule_witness :
  add_decision "/work" (Sample.archive true false) "src/v8/.git"
    Sample.empty_dir = Ok EXCLUDE /\
  add_decision "/work" (Sample.archive false false)
    "src/third_party/rust-src.git/.git" Sample.empty_dir = Ok EXCLUDE /\
  add_decision "/work" (Sample.archive true false)
    "src/third_party/rust-src/src/tools/cargo/.git" Sample.empty_dir
    = Ok INCLUDE.
Proof.
  split; [|split].
  - apply (proj1 (git_metadata_rule "/work" (Sample.archive true false)
                    "src/v8/.git" Sample.empty_dir "src/v8" "v8/.git"
                    eq_refl eq_refl)). reflexivity.
  - apply (proj1 (git_metadata_rule "/work" (Sample.archive false false)
                    "src/third_party/rust-src.git/.git" Sample.empty_dir
                    "src/third_party/rust-src.git"
                    "third_party/rust-src.git/.git" eq_refl eq_refl)).
    reflexivity.
  - apply (proj2 (git_metadata_rule "/work" (Sample.archive true false)
                    "src/third_party/rust-src/src/tools/cargo/.git"
                    Sample.empty_dir
                    "src/third_party/rust-src/src/tools/cargo"
                    "third_party/rust-src/src/tools/cargo/.git"
                    eq_refl eq_refl)); reflexivity.
Defined.

(** X3. In a trimmed run an entry in whose name, as given to [add] (the
    source directory included), [ChangeLog] occurs is excluded, whatever
    its base name, relative path and kind are; an untrimmed run does not
    look for [ChangeLog]. *)
Theorem changelog_excluded_when_trimmed cwd self name arcname n :
  remove_nonessential_files self = true ->
  contains "ChangeLog" name = true ->
  add_decision cwd self name n = Ok EXCLUDE /\
  add cwd self name arcname n = report_skipped self name.
Proof.
  intros Hrm Hc.
  assert (Hne : truthy name = true) by now apply (contains_truthy "ChangeLog").
  destruct (relpath_some cwd name (src_dir self) Hne) as [rel Hrel].
  assert (H : add_decision cwd self name n = Ok EXCLUDE).
  { unfold add_decision. rewrite Hrel, Hrm, Hc.
    destruct (split name) as [fp fn].
    repeat match goal with
           | |- context [if ?b then _ else _] => destruct b
           end; reflexivity. }
  split; [exact H|]. now apply add_excluded.
Qed.

Lemma changelog_excluded_when_trimmed_witness :
  add_decision "/work" (Sample.archive true false)
    "src/third_party/ChangeLogs/BUILD.gn" (RegFile Sample.rw_stat "x")
    = Ok EXCLUDE /\
  add_decision "/work" (Sample.archive false false)
    "src/third_party/ChangeLogs/BUILD.gn" (RegFile Sample.rw_stat "x")
    = Ok INCLUDE.
Proof.
  split; [|reflexivity].
  apply (changelog_excluded_when_trimmed "/work" (Sample.archive true false)
           "src/third_party/ChangeLogs/BUILD.gn" EmptyString
           (RegFile Sample.rw_stat "x")); reflexivity.
Defined.

(* ================================================================== *)
(** ** The members of a walk *)






(* ================================================================== *)
(** ** Relative names along a walk *)

Lemma append_assoc (a b c : string) : ((a ++ b) ++ c = a ++ (b ++ c))%string.
Proof. induction a as [|x a IH]; [reflexivity|]. cbn. now rewrite IH. Qed.

Lemma append_nil_r (a : string) : (a ++ EmptyString = a)%string.
Proof. induction a as [|x a IH]; [reflexivity|]. cbn. now rewrite IH. Qed.

Lemma split_sep_nonempty s : exists x xs, split_sep s = x :: xs.
Proof.
  induction s as [|c s (x & xs & IH)]; [now eexists _, _|].
  cbn [split_sep]. rewrite IH. destruct (Ascii.eqb c sep); now eexists _, _.
Qed.

Lemma split_sep_app_cons a b :
  split_sep (a ++ String "/" b) = (split_sep a ++ split_sep b)%list.
Proof.
  induction a as [|c a IH]; [reflexivity|].
  cbn [append split_sep]. rewrite IH.
  destruct (Ascii.eqb c sep); [reflexivity|].
  destruct (split_sep_nonempty a) as (x & xs & ->). reflexivity.
Qed.

Lemma split_sep_app_sep a b :
  split_sep (a ++ "/" ++ b) = (split_sep a ++ split_sep b)%list.
Proof. exact (split_sep_app_cons a b). Qed.

Lemma prefix_sep_cons c s :
  String.prefix "/" (String c s) = Ascii.eqb c sep.
Proof.
  change (String.prefix "/" (String c s))
    with (if ascii_dec "/" c then String.prefix EmptyString s else false).
  destruct (ascii_dec "/" c) as [<-|Hn].
  - now rewrite prefix_nil.
  - symmetry. apply Ascii.eqb_neq. unfold sep. congruence.
Qed.

Lemma split_sep_slash_free s :
  Forall (fun c => contains "/" c = false) (split_sep s).
Proof.
  induction s as [|c s IH]; [repeat constructor|].
  cbn [split_sep]. destruct (Ascii.eqb c sep) eqn:Ec.
  - constructor; [reflexivity|exact IH].
  - destruct (split_sep_nonempty s) as (x & xs & E). rewrite E in IH |- *.
    inversion IH as [|? ? Hx Hxs]; subst. constructor; [|exact Hxs].
    cbn [contains]. now rewrite prefix_sep_cons, Ec, Hx.
Qed.

Lemma split_sep_one c : contains "/" c = false -> split_sep c = [c].
Proof.
  induction c as [|ch c IH]; [reflexivity|].
  cbn [contains]. rewrite prefix_sep_cons. intros H.
  apply orb_false_iff in H as [Hc H].
  cbn [split_sep]. now rewrite Hc, (IH H).
Qed.

Lemma join_sep_cons x y l :
  join_sep (x :: y :: l) = (x ++ "/" ++ join_sep (y :: l))%string.
Proof. reflexivity. Qed.

Lemma split_join_sep l :
  l <> [] -> Forall (fun c => contains "/" c = false) l ->
  split_sep (join_sep l) = l.
Proof.
  induction l as [|x l IH]; [contradiction|]. intros _ Hl.
  inversion Hl as [|? ? Hx Hl']; subst.
  destruct l as [|y l]; [now apply split_sep_one|].
  rewrite join_sep_cons, split_sep_app_sep, (split_sep_one _ Hx), IH;
    [reflexivity|discriminate|exact Hl'].
Qed.


Lemma join_sep_snoc l f :
  l <> [] -> join_sep (l ++ [f]) = (join_sep l ++ "/" ++ f)%string.
Proof.
  induction l as [|x l IH]; [contradiction|]. intros _.
  destruct l as [|y l]; [reflexivity|].
  cbn [app]. rewrite join_sep_cons.
  change (x :: y :: l) with (x :: (y :: l)).
  rewrite (join_sep_cons x y l), append_assoc.
  cbn [app] in IH. rewrite IH by discriminate.
  now rewrite !append_assoc.
Qed.

(** *** The component loop of [normpath] *)


Lemma normpath_step_empty b acc : normpath_step b acc EmptyString = acc.
Proof. reflexivity. Qed.

Lemma normpath_step_entry b acc f :
  entry_name f = true -> normpath_step b acc f = f :: acc.
Proof.
  unfold entry_name, normpath_step, mem, truthy. intros H.
  apply andb_true_iff in H as [H H2]. apply andb_true_iff in H as [H H1].
  apply andb_true_iff in H as [H0 _].
  cbn [existsb]. apply negb_true_iff in H0, H1, H2.
  now rewrite H0, H1, H2.
Qed.

Lemma fold_normpath_entries b l : forall acc,
  forallb entry_name l = true ->
  fold_left (normpath_step b) l acc = (rev l ++ acc)%list.
Proof.
  induction l as [|f l IH]; intros acc H; [reflexivity|].
  cbn [forallb] in H. apply andb_true_iff in H as [Hf Hl].
  cbn [fold_left rev]. rewrite (normpath_step_entry _ _ _ Hf), (IH _ Hl).
  now rewrite <- app_assoc.
Qed.

Lemma normpath_step_clean b acc comp :
  Forall (fun c => clean c = true) acc -> contains "/" comp = false ->
  Forall (fun c => clean c = true) (normpath_step b acc comp).
Proof.
  intros Hacc Hc. unfold normpath_step.
  destruct (mem comp [EmptyString; "."]) eqn:Em; [exact Hacc|].
  match goal with |- context [if ?x then _ else _] => destruct x end.
  - constructor; [|exact Hacc]. unfold clean, truthy. rewrite Hc.
    unfold mem in Em. cbn [existsb] in Em.
    apply orb_false_iff in Em as [Em _]. now rewrite Em.
  - destruct acc as [|a acc]; [exact Hacc|]. now inversion Hacc.
Qed.

Lemma fold_normpath_clean b l : forall acc,
  Forall (fun c => contains "/" c = false) l ->
  Forall (fun c => clean c = true) acc ->
  Forall (fun c => clean c = true) (fold_left (normpath_step b) l acc).
Proof.
  induction l as [|x l IH]; intros acc Hl Hacc; [exact Hacc|].
  inversion Hl; subst. cbn [fold_left]. apply IH; [assumption|].
  now apply normpath_step_clean.
Qed.

Lemma filter_truthy_clean l :
  Forall (fun c => clean c = true) l -> List.filter truthy l = l.
Proof.
  induction 1 as [|x l Hx _ IH]; [reflexivity|].
  cbn [List.filter]. unfold clean in Hx. apply andb_true_iff in Hx as [-> _].
  now rewrite IH.
Qed.

Lemma clean_slash_free l :
  Forall (fun c => clean c = true) l ->
  Forall (fun c => contains "/" c = false) l.
Proof.
  apply Forall_impl. intros c H. unfold clean in H.
  apply andb_true_iff in H as [_ H]. now apply negb_true_iff in H.
Qed.

(** The components of a normalised absolute path are those the loop of
    [normpath] leaves. *)
Lemma abs_comps_fold cwd p :
  startswith (absolute cwd p) "/" = true ->
  abs_comps cwd p =
  rev (fold_left (normpath_step true) (split_sep (absolute cwd p)) []).
Proof.
  intros Hs. unfold abs_comps, abspath. fold (absolute cwd p).
  set (Z := absolute cwd p) in *.
  assert (Hclean : Forall (fun c => clean c = true)
            (rev (fold_left (normpath_step true) (split_sep Z) []))).
  { apply Forall_rev. apply fold_normpath_clean;
      [apply split_sep_slash_free|constructor]. }
  unfold normpath. rewrite Hs.
  assert (Ht : truthy Z = true) by (destruct Z; [discriminate Hs|reflexivity]).
  rewrite Ht. cbn [negb].
  set (nc := rev (fold_left _ (split_sep Z) [])) in *.
  assert (Hnc : List.filter truthy (split_sep (join_sep nc)) = nc).
  { destruct nc as [|x nc'] eqn:E; [reflexivity|].
    rewrite split_join_sep; [now apply filter_truthy_clean|discriminate|].
    now apply clean_slash_free. }
  destruct (startswith Z "//" && negb (startswith Z "///"));
    cbn [Nat.eqb negb repeat String.concat append truthy String.eqb
         split_sep Ascii.eqb Bool.eqb sep List.filter];
    exact Hnc.
Qed.

Lemma startswith_sep_app a b :
  truthy a = true -> startswith (a ++ b) "/" = startswith a "/".
Proof.
  intros Ha. destruct a as [|c a]; [discriminate Ha|].
  unfold startswith. cbn [append]. now rewrite !prefix_sep_cons.
Qed.

Lemma endswith_sep_inv a :
  endswith a "/" = true -> exists x, a = (x ++ "/")%string.
Proof.
  induction a as [|c a IH]; [discriminate|].
  cbn [endswith]. intros H. apply orb_true_iff in H as [H|H].
  - apply String.eqb_eq in H. rewrite H. now exists EmptyString.
  - destruct (IH H) as [x ->]. now exists (String c x).
Qed.

Lemma endswith_sep_app z s :
  truthy s = true -> endswith (z ++ s) "/" = endswith s "/".
Proof.
  intros Hs. induction z as [|c z IH]; [reflexivity|].
  cbn [append endswith]. rewrite IH.
  replace (String c (z ++ s) =? "/")%string with false; [reflexivity|].
  symmetry. apply String.eqb_neq. intros E. injection E as _ E.
  destruct z; [|discriminate E]. cbn in E. subst s. discriminate Hs.
Qed.

Lemma entry_names_relative rest :
  forallb entry_name (split_sep rest) = true -> startswith rest "/" = false.
Proof.
  destruct rest as [|c rest]; [reflexivity|].
  unfold startswith. rewrite prefix_sep_cons. cbn [split_sep].
  destruct (Ascii.eqb c sep); [discriminate|reflexivity].
Qed.

(** [os.path.join] with a relative second argument. *)
Lemma join_relative_eq a rest :
  truthy a = true -> startswith rest "/" = false ->
  join a rest = (a ++ (if endswith a "/" then rest else "/" ++ rest))%string.
Proof.
  intros Ha Hr. unfold join. rewrite Hr, Ha. cbn [negb orb].
  now destruct (endswith a "/").
Qed.

Lemma absolute_sep cwd p :
  startswith cwd "/" = true -> startswith (absolute cwd p) "/" = true.
Proof.
  intros Hc. unfold absolute.
  destruct (startswith p "/") eqn:Hp; [exact Hp|].
  assert (Ht : truthy cwd = true) by (destruct cwd; [discriminate Hc|reflexivity]).
  rewrite (join_relative_eq _ _ Ht Hp). now rewrite startswith_sep_app.
Qed.

Lemma absolute_truthy cwd p : truthy p = true -> truthy (absolute cwd p) = true.
Proof.
  intros Hp. unfold absolute.
  destruct (startswith p "/"); [exact Hp|].
  unfold join. destruct (startswith p "/"); [exact Hp|].
  destruct (negb (truthy cwd) || endswith cwd "/");
    destruct cwd; try reflexivity; exact Hp.
Qed.

(** Making a path absolute and joining a relative path to it commute. *)
Lemma absolute_join cwd name rest :
  truthy name = true -> startswith rest "/" = false ->
  absolute cwd (join name rest) = join (absolute cwd name) rest.
Proof.
  intros Hn Hr.
  rewrite (join_relative_eq name rest Hn Hr).
  rewrite (join_relative_eq _ _ (absolute_truthy cwd name Hn) Hr).
  unfold absolute. rewrite (startswith_sep_app _ _ Hn).
  destruct (startswith name "/") eqn:Hs; [reflexivity|].
  assert (Hs' : startswith (name ++ (if endswith name "/" then rest
                                     else "/" ++ rest)) "/" = false)
    by now rewrite startswith_sep_app.
  unfold join at 1. rewrite Hs'. unfold join. rewrite Hs.
  destruct (negb (truthy cwd) || endswith cwd "/");
    rewrite ?append_assoc, ?endswith_sep_app by exact Hn;
    try reflexivity.
  change ("/" ++ name)%string with (String "/" name).
  change (cwd ++ String "/" name)%string with (cwd ++ "/" ++ name)%string.
  rewrite <- (append_assoc cwd "/" name).
  rewrite (endswith_sep_app (cwd ++ "/") name Hn).
  reflexivity.
Qed.

Lemma fold_normpath_join b x rest :
  truthy x = true ->
  forallb entry_name (split_sep rest) = true ->
  fold_left (normpath_step b) (split_sep (join x rest)) [] =
  (rev (split_sep rest) ++ fold_left (normpath_step b) (split_sep x) [])%list.
Proof.
  intros Hx Hr.
  rewrite (join_relative_eq x rest Hx (entry_names_relative _ Hr)).
  destruct (endswith x "/") eqn:He.
  - destruct (endswith_sep_inv _ He) as [x' ->].
    rewrite append_assoc. change ("/" ++ rest)%string with (String "/" rest).
    rewrite (split_sep_app_cons x' rest), (split_sep_app_cons x' EmptyString).
    rewrite !fold_left_app. cbn [split_sep fold_left].
    rewrite normpath_step_empty.
    now apply fold_normpath_entries.
  - rewrite split_sep_app_sep, fold_left_app.
    now apply fold_normpath_entries.
Qed.

Lemma abs_comps_join cwd name rest :
  startswith cwd "/" = true -> truthy name = true ->
  forallb entry_name (split_sep rest) = true ->
  abs_comps cwd (join name rest) = (abs_comps cwd name ++ split_sep rest)%list.
Proof.
  intros Hc Hn Hr.
  rewrite !abs_comps_fold by now apply absolute_sep.
  rewrite (absolute_join _ _ _ Hn (entry_names_relative _ Hr)).
  rewrite (fold_normpath_join _ _ _ (absolute_truthy cwd name Hn) Hr).
  now rewrite rev_app_distr, rev_involutive.
Qed.

Lemma common_len_app l rc : common_len l (l ++ rc) = List.length l.
Proof.
  induction l as [|x l IH]; [now destruct rc|].
  cbn [common_len app List.length]. now rewrite String.eqb_refl, IH.
Qed.

Lemma skipn_length_app {A} (l rc : list A) : skipn (List.length l) (l ++ rc) = rc.
Proof. induction l as [|x l IH]; [reflexivity|exact IH]. Qed.

(** The relative name of a name below the start. *)
Lemma relpath_below cwd src name rc :
  truthy name = true -> below cwd src name rc ->
  relpath cwd name src =
  Some (match rc with [] => "." | _ => join_sep rc end).
Proof.
  intros Hn Hb. unfold relpath. rewrite Hn. cbn [negb].
  fold (abs_comps cwd src). fold (abs_comps cwd name).
  unfold below in Hb. rewrite Hb, common_len_app, Nat.sub_diag, skipn_length_app.
  reflexivity.
Qed.

Lemma below_self cwd src : below cwd src src [].
Proof. unfold below. now rewrite app_nil_r. Qed.

(** X5. The relative name goes along with the walk: when the working
    directory is absolute and [name] lies below the source directory by
    the components [rc], the name [os.path.join(name, rest)] of an entry
    (or of a relative path made of entry names) lies below it by [rc]
    followed by the components of [rest], and [os.path.relpath] of it is
    these components joined by slashes; the source directory itself has
    the relative name [.]. *)
Theorem rel_name_of_joined cwd src name rest rc :
  startswith cwd "/" = true ->
  truthy name = true ->
  forallb entry_name (split_sep rest) = true ->
  below cwd src name rc ->
  below cwd src (join name rest) (rc ++ split_sep rest) /\
  relpath cwd (join name rest) src = Some (join_sep (rc ++ split_sep rest)) /\
  relpath cwd name src = Some (match rc with [] => "." | _ => join_sep rc end).
Proof.
  intros Hc Hn Hr Hb.
  assert (Hb' : below cwd src (join name rest) (rc ++ split_sep rest)).
  { unfold below in *. rewrite (abs_comps_join _ _ _ Hc Hn Hr), Hb.
    now rewrite app_assoc. }
  split; [exact Hb'|]. split; [|now apply relpath_below].
  rewrite (relpath_below _ _ _ _ (join_truthy _ _ Hn) Hb').
  destruct (split_sep_nonempty rest) as (x & xs & ->).
  now destruct rc.
Qed.

Lemma rel_name_of_joined_witness :
  below "/work" "checkout/../src" "src/v8" ["v8"] /\
  relpath "/work" (join "src/v8" "test/a.cc") "checkout/../src"
    = Some "v8/test/a.cc" /\
  relpath "/work" "checkout/../src" "checkout/../src" = Some ".".
Proof.
  assert (Hb : below "/work" "checkout/../src" "src/v8" ["v8"]) by reflexivity.
  split; [exact Hb|].
  destruct (rel_name_of_joined "/work" "checkout/../src" "src/v8" "test/a.cc"
              ["v8"] eq_refl eq_refl eq_refl Hb) as (_ & H & _).
  destruct (rel_name_of_joined "/work" "checkout/../src" "checkout/../src"
              "v8" [] eq_refl eq_refl eq_refl (below_self _ _)) as (_ & _ & H0).
  split; [exact H|exact H0].
Defined.















(* ================================================================== *)
(** ** What the options change *)






Lemma reaches_walk_with_trim w opts args arg0 src c ts b :
  reaches_walk w opts args arg0 src c ts ->
  reaches_walk w (with_trim opts b) args arg0 src c ts.
Proof. intros H. exact H. Qed.



Ltac no_reach :=
  let E := fresh "E" in
  intros ? ? ? ? (E & (? & ? & ?) & ? & ? & ? & ? & ? & ? & ?);
  try discriminate E; try (injection E as <-); congruence.

(** A run reaches the walk or stops before it, and which of the two does
    not depend on the options that only the walk reads. *)
Lemma reaches_walk_or_not w opts args :
  (exists arg0 src c ts, reaches_walk w opts args arg0 src c ts) \/
  ((forall arg0 src c ts, ~ reaches_walk w opts args arg0 src c ts) /\
   forall opts',
     options.version opts' = options.version opts ->
     options.src_dir opts' = options.src_dir opts ->
     main w opts' args = main w opts args).
Proof.
  destruct args as [|arg0 [|a1 args']];
    [right; split; [no_reach|reflexivity]| |
     right; split; [no_reach|reflexivity]].
  destruct (options.version opts) as [v|] eqn:Hv;
    [|right; split; [no_reach|]; intros opts' Hv' Hs';
      unfold main; now rewrite Hv', Hv].
  destruct (truthy v) eqn:Htv;
    [|right; split; [no_reach|]; intros opts' Hv' Hs';
      unfold main; now rewrite Hv', Hv, Htv].
  destruct (options.src_dir opts) as [src|] eqn:Hs;
    [|right; split; [no_reach|]; intros opts' Hv' Hs';
      unfold main; now rewrite Hv', Hs', Hv, Hs, Htv].
  destruct (path_exists w src) eqn:Hex;
    [|right; split; [no_reach|]; intros opts' Hv' Hs';
      unfold main; now rewrite Hv', Hs', Hv, Hs, Htv, Hex].
  destruct (writable w (arg0 ++ ".tar.xz")) eqn:Hw;
    [|right; split; [no_reach|]; intros opts' Hv' Hs';
      unfold main, open_w; now rewrite Hv', Hs', Hv, Hs, Htv, Hex, Hw].
  destruct (xz_returncode w) as [c|] eqn:Hxz;
    [|right; split; [no_reach|]; intros opts' Hv' Hs';
      unfold main, open_w, popen;
      now rewrite Hv', Hs', Hv, Hs, Htv, Hex, Hw, Hxz].
  destruct (read_text_cases w (timestamp_file src)) as [[text Hr]|Hr].
  - destruct (PyStr.int text) as [ts|] eqn:Hi.
    + left. exists arg0, src, c, ts.
      split; [reflexivity|]. split; [now exists v|].
      repeat (split; [assumption|]). now exists text.
    + right. split; [no_reach|]. intros opts' Hv' Hs'.
      unfold timestamp_file in Hr.
      unfold main, open_w, popen, int.
      rewrite Hv', Hs', Hv, Hs, Htv, Hex, Hw, Hxz.
      cbn [negb Run.bind emit]. rewrite Hr. cbn [Run.bind app].
      now rewrite Hi.
  - right. split; [no_reach|]. intros opts' Hv' Hs'.
    unfold timestamp_file in Hr.
    unfold main, open_w, popen.
    rewrite Hv', Hs', Hv, Hs, Htv, Hex, Hw, Hxz.
    cbn [negb Run.bind emit]. now rewrite Hr.
Qed.

Lemma members_outcome_bind {A B} (m1 m2 : M A) (k1 k2 : A -> M B) :
  members (trace m1) = members (trace m2) -> outcome m1 = outcome m2 ->
  (forall a, members (trace (k1 a)) = members (trace (k2 a)) /\
             outcome (k1 a) = outcome (k2 a)) ->
  members (trace (Run.bind m1 k1)) = members (trace (Run.bind m2 k2)) /\
  outcome (Run.bind m1 k1) = outcome (Run.bind m2 k2).
Proof.
  intros Hm Ho Hk. rewrite !trace_bind, !outcome_bind, !members_app, Hm, Ho.
  destruct (outcome m2) as [a|e]; [|auto].
  destruct (Hk a) as [-> ->]. auto.
Qed.

(** The reporting flag does not reach the archive stream. *)
Lemma add_set_verbose cwd self v n :
  forall name arcname,
    members (trace (add cwd (set_verbose self v) name arcname n))
      = members (trace (add cwd self name arcname n)) /\
    outcome (add cwd (set_verbose self v) name arcname n)
      = outcome (add cwd self name arcname n).
Proof.
  induction n as [st data|st es IH|st l t _] using node_induction;
    intros name arcname; rewrite !add_eq;
    change (add_decision cwd (set_verbose self v) name)
      with (add_decision cwd self name);
    match goal with
    | |- context [add_decision cwd self name ?x] =>
        destruct (add_decision cwd self name x) as [[|]|e]
    end;
    try (split; [now rewrite !members_report_skipped
                |now rewrite !outcome_report_skipped]);
    try (split; reflexivity);
    (apply members_outcome_bind;
     [now rewrite !members_report_added|now rewrite !outcome_report_added|]);
    intros _; try (split; reflexivity).
  cbv zeta. apply members_outcome_bind; [reflexivity|reflexivity|].
  intros _. induction IH as [|[f c] es' Hc _ IHes]; [split; reflexivity|].
  cbn [add_entries]. cbn [snd] in Hc.
  apply members_outcome_bind; [apply Hc|apply Hc|]. intros _. exact IHes.
Qed.



Lemma add_path_set_verbose w self v path arcname :
  members (trace (add_path w (set_verbose self v) path arcname))
    = members (trace (add_path w self path arcname)) /\
  outcome (add_path w (set_verbose self v) path arcname)
    = outcome (add_path w self path arcname).
Proof.
  unfold add_path. destruct (os_lstat w path); [|split; reflexivity].
  apply add_set_verbose.
Qed.

Lemma add_test_dirs_set_verbose w self v base dirs :
  members (trace (add_test_dirs w (set_verbose self v) base dirs))
    = members (trace (add_test_dirs w self base dirs)) /\
  outcome (add_test_dirs w (set_verbose self v) base dirs)
    = outcome (add_test_dirs w self base dirs).
Proof.
  induction dirs as [|d dirs IH]; [split; reflexivity|].
  cbn [add_test_dirs set_verbose src_dir].
  apply members_outcome_bind; [| |intros _; exact IH];
    (destruct (path_isdir w (join (src_dir self) d)); cbn [negb];
     [apply add_path_set_verbose|reflexivity]).
Qed.

Lemma walk_with_verbose w opts src arg0 ts v :
  members (trace (walk w (with_verbose opts v) src arg0 ts))
    = members (trace (walk w opts src arg0 ts)).
Proof.
  unfold walk. cbn [with_verbose options.test_data].
  change (archive_of (with_verbose opts v) src ts)
    with (set_verbose (archive_of opts src ts) v).
  change (output_basename_of (with_verbose opts v) arg0)
    with (output_basename_of opts arg0).
  destruct (options.test_data opts);
    [apply add_test_dirs_set_verbose|apply add_path_set_verbose].
Qed.

(** X7. [--verbose] changes only what is printed: with the flag or
    without it, a run in the same environment with the same other options
    writes the same members, opens the same output file and ends the same
    way. *)
Theorem verbose_only_prints w opts args v :
  members (trace (main w (with_verbose opts v) args))
    = members (trace (main w opts args)) /\
  outcome (main w (with_verbose opts v) args) = outcome (main w opts args) /\
  outputs (trace (main w (with_verbose opts v) args))
    = outputs (trace (main w opts args)).
Proof.
  destruct (reaches_walk_or_not w opts args)
    as [(arg0 & src & c & ts & Hr)|[_ Heq]].
  - assert (Hr' : reaches_walk w (with_verbose opts v) args arg0 src c ts)
      by exact Hr.
    split; [|split].
    + rewrite (main_walk_members _ _ _ _ _ _ _ Hr),
              (main_walk_members _ _ _ _ _ _ _ Hr').
      apply walk_with_verbose.
    + now rewrite (main_walk _ _ _ _ _ _ _ Hr), (main_walk _ _ _ _ _ _ _ Hr').
    + rewrite (main_walk _ _ _ _ _ _ _ Hr), (main_walk _ _ _ _ _ _ _ Hr').
      cbn [trace fst]. rewrite !outputs_app.
      now rewrite !(walk_events_no_output _ (walk_walk_events _ _ _ _ _)).
  - now rewrite (Heq (with_verbose opts v) eq_refl eq_refl).
Qed.





Lemma is_skipped_line_skipped name : is_skipped_line ("D" ++ tab ++ name) = true.
Proof. exact (prefix_app ("D" ++ tab) name). Qed.










(* ================================================================== *)
(** ** Whole runs *)

Lemma reaches_walk_root w opts args arg0 src c ts :
  reaches_walk w opts args arg0 src c ts ->
  truthy src = true /\ exists root, os_lstat w src = Some root.
Proof.
  intros (_ & _ & _ & Hex & _). split.
  - exact (path_exists_truthy _ _ Hex).
  - exact (path_exists_lstat _ _ Hex).
Qed.

(** X9. In a run over the whole source directory, every member is named
    below the name of the root, which is [--basename] or, when that is not
    given or empty, the last component of the output name; and the root,
    when it is included, is the first member, under exactly that name with
    leading slashes dropped. *)
Theorem full_run_rooted w opts args arg0 src c ts root :
  reaches_walk w opts args arg0 src c ts ->
  options.test_data opts = false ->
  os_lstat w src = Some root ->
  wf_node root = true ->
  (forall ti data,
      In (ti, data) (members (trace (main w opts args))) ->
      startswith (Tar.name ti) (lstrip_sep (output_basename_of opts arg0))
      = true) /\
  (add_decision (getcwd w) (archive_of opts src ts) src root = Ok INCLUDE ->
   exists ti rest,
     members (trace (main w opts args)) = (ti, file_data root) :: rest /\
     Tar.name ti = lstrip_sep (output_basename_of opts arg0)) /\
  (options.basename opts = None \/ options.basename opts = Some EmptyString ->
   output_basename_of opts arg0 = basename arg0).
Proof.
  intros Hr Htd Hl Hwf.
  assert (Hm : members (trace (main w opts args)) =
               members (trace (add (getcwd w) (archive_of opts src ts) src
                                 (output_basename_of opts arg0) root))).
  { rewrite (main_walk_members _ _ _ _ _ _ _ Hr). unfold walk, add_path.
    now rewrite Htd, Hl. }
  split; [|split].
  - intros ti data Hin. rewrite Hm in Hin.
    exact (add_names_rooted _ _ _ _ _ _ _ Hwf Hin).
  - intros Hd. rewrite Hm, (add_included _ _ _ _ _ Hd).
    eexists _, _. split; reflexivity.
  - unfold output_basename_of. intros [-> | ->]; reflexivity.
Qed.

Lemma full_run_rooted_witness :
  map (fun m => Tar.name (fst m))
    (members (trace (main Sample.the_world
                       (Sample.opts_with true false (Some "src") (Some "124.0.1"))
                       ["/srv/out/chromium-124"]))) =
    ["chromium-124"; "chromium-124/build"; "chromium-124/build/util";
     "chromium-124/build/util/LASTCHANGE.committime";
     "chromium-124/chrome"; "chromium-124/chrome/test";
     "chromium-124/chrome/test/data";
     "chromium-124/v8"; "chromium-124/v8/BUILD.gn"; "chromium-124/v8/test";
     "chromium-124/v8/testsuite"] /\
  exists ti rest,
    members (trace (main Sample.the_world
                       (Sample.opts_with true false (Some "src") (Some "124.0.1"))
                       ["/srv/out/chromium-124"])) = (ti, None) :: rest /\
    Tar.name ti = "chromium-124".
Proof.
  split; [reflexivity|].
  assert (Hr : reaches_walk Sample.the_world
                 (Sample.opts_with true false (Some "src") (Some "124.0.1"))
                 ["/srv/out/chromium-124"] "/srv/out/chromium-124" "src" 0
                 1712345678).
  { split; [reflexivity|]. split; [exists "124.0.1"; split; reflexivity|].
    repeat (split; [reflexivity|]).
    exists ("1712345678" ++ Sample.newline). split; reflexivity. }
  destruct (full_run_rooted _ _ _ _ _ _ _ Sample.tree Hr eq_refl eq_refl eq_refl)
    as (_ & H & _).
  exact (H eq_refl).
Defined.

Lemma relpath_self cwd src :
  truthy src = true -> relpath cwd src src = Some ".".
Proof.
  intros H. exact (relpath_below cwd src src [] H (below_self cwd src)).
Qed.

(** X11. The source directory is classified like any entry, by the name
    [--src-dir] gives it: when the last component of that name is
    [__pycache__], ends in [.pyc], is [.git], or is [.svn] or [out]
    without [node_modules] before it, or when the run is trimmed and
    [ChangeLog] occurs in that name, a run over the whole source directory
    writes no member at all, and still ends with status 0 if [xz] does. *)
Theorem excluded_source_directory_gives_empty_archive
    w opts args arg0 src c ts file_path file_name :
  reaches_walk w opts args arg0 src c ts ->
  options.test_data opts = false ->
  split src = (file_path, file_name) ->
  ((file_name =? "__pycache__")%string || endswith file_name ".pyc" = true \/
   (mem file_name [".svn"; "out"] = true /\
    contains "node_modules" file_path = false) \/
   file_name = ".git" \/
   (options.remove_nonessential_files opts = true /\
    contains "ChangeLog" src = true)) ->
  members (trace (main w opts args)) = [] /\
  outcome (main w opts args) = Ok (if c =? 0 then 0 else 1).
Proof.
  intros Hr Htd Hsp Hcase.
  destruct (reaches_walk_root _ _ _ _ _ _ _ Hr) as (Hne & root & Hl).
  split; [|now rewrite (main_walk _ _ _ _ _ _ _ Hr)].
  rewrite (main_walk_members _ _ _ _ _ _ _ Hr). unfold walk, add_path.
  rewrite Htd, Hl.
  apply (add_excluded (getcwd w) (archive_of opts src ts) src
           (output_basename_of opts arg0) root).
  unfold add_decision. cbn [archive_of src_dir remove_nonessential_files].
  rewrite (relpath_self _ _ Hne), Hsp.
  destruct (islink root && negb (exists_ root)); [reflexivity|].
  destruct Hcase as [H|[[H1 H2]|[H|[H1 H2]]]].
  - now rewrite H.
  - rewrite H1, H2. cbn [negb andb].
    now destruct ((file_name =? "__pycache__")%string || endswith file_name ".pyc").
  - subst file_name. reflexivity.
  - rewrite H1, H2.
    repeat match goal with
           | |- context [if ?b then _ else _] => destruct b
           end; reflexivity.
Qed.

Lemma excluded_source_directory_gives_empty_archive_witness :
  main (Sample.world_of (Directory Sample.dir_stat
                           [("out", Sample.tree)]) (Some 0))
    (Sample.opts_with false false (Some "src/out") (Some "124.0.1"))
    ["/tmp/chromium-124"]
  = ([OpenOutput "/tmp/chromium-124.tar.xz";
      Popen ["xz"; "-T"; "0"; "-9"; "-"];
      ReadFile "src/out/build/util/LASTCHANGE.committime";
      CloseArchive; CloseStdin; CloseOutput], Ok 0) /\
  members (trace (main (Sample.world_of (Directory Sample.dir_stat
                                           [("out", Sample.tree)]) (Some 0))
                    (Sample.opts_with false false (Some "src/out")
                       (Some "124.0.1"))
                    ["/tmp/chromium-124"])) = [].
Proof.
  split; [reflexivity|].
  apply (excluded_source_directory_gives_empty_archive
           (Sample.world_of (Directory Sample.dir_stat [("out", Sample.tree)])
              (Some 0))
           (Sample.opts_with false false (Some "src/out") (Some "124.0.1"))
           ["/tmp/chromium-124"] "/tmp/chromium-124" "src/out" 0 1712345678
           "src" "out").
  - split; [reflexivity|]. split; [exists "124.0.1"; split; reflexivity|].
    repeat (split; [reflexivity|]).
    exists ("1712345678" ++ Sample.newline). split; reflexivity.
  - reflexivity.
  - reflexivity.
  - right. left. split; reflexivity.
Defined.



(** X13. The value of [--version] is only tested for being given and
    not empty, and [--xz] is not read at all: a run with another version
    text or another [--xz] does exactly the same. *)
Theorem version_text_and_xz_flag_unused w opts args xz version :
  version_given opts = true -> truthy version = true ->
  main w (with_label opts xz version) args = main w opts args.
Proof.
  unfold version_given. intros Hv Ht. unfold main.
  destruct args as [|arg0 [|]]; try reflexivity.
  cbn [with_label options.version options.src_dir options.basename
       options.verbose options.test_data options.remove_nonessential_files].
  destruct (options.version opts) as [v0|]; [|discriminate Hv].
  now rewrite Hv, Ht.
Qed.

Lemma version_text_and_xz_flag_unused_witness :
  main Sample.the_world
    (with_label Sample.full_opts true "125.0.6422.60") ["/tmp/chromium-124"]
  = main Sample.the_world Sample.full_opts ["/tmp/chromium-124"].
Proof.
  apply (version_text_and_xz_flag_unused Sample.the_world Sample.full_opts
           ["/tmp/chromium-124"] true "125.0.6422.60"); reflexivity.
Defined.




(** X15. A source directory that [--src-dir] names through a symbolic
    link is archived as that link: [add] looks at the link itself, so a
    run over it writes at most one member, of type [SYMTYPE] and with the
    target of the link as its link name, and nothing of what lies behind
    the link. *)
Theorem symlinked_source_directory_archived_as_link
    w opts args arg0 src c ts st l t :
  reaches_walk w opts args arg0 src c ts ->
  options.test_data opts = false ->
  os_lstat w src = Some (SymLink st l t) ->
  forall ti data,
    In (ti, data) (members (trace (main w opts args))) ->
    members (trace (main w opts args)) = [(ti, None)] /\
    data = None /\
    Tar.type ti = Tar.SYMTYPE /\
    Tar.linkname ti = l /\
    Tar.name ti = lstrip_sep (output_basename_of opts arg0).
Proof.
  intros Hr Htd Hl ti data.
  rewrite (main_walk_members _ _ _ _ _ _ _ Hr). unfold walk, add_path.
  rewrite Htd, Hl, add_eq.
  destruct (add_decision (getcwd w) (archive_of opts src ts) src
              (SymLink st l t)) as [[|]|e].
  - rewrite trace_bind, members_app, members_report_added,
      outcome_report_added.
    cbn [app trace TarFile.addfile emit fst members file_data].
    intros [E|[]]. injection E as <- <-. repeat split; reflexivity.
  - rewrite members_report_skipped. intros [].
  - intros [].
Qed.

Lemma symlinked_source_directory_archived_as_link_witness :
  members (trace (main
    (Sample.world_of (Directory Sample.dir_stat
                        [("current", SymLink Sample.link_stat "releases/124"
                                       (Some Sample.tree))]) (Some 0))
    (Sample.opts_with false false (Some "src/current") (Some "124.0.1"))
    ["/tmp/chromium-124"])) =
  [({| Tar.name := "chromium-124"; Tar.mode := 41471;
       Tar.uid := 0; Tar.gid := 0; Tar.size := 0; Tar.mtime := 1712345678;
       Tar.type := Tar.SYMTYPE; Tar.linkname := "releases/124";
       Tar.uname := "0"; Tar.gname := "0" |}, None)].
Proof.
  apply (symlinked_source_directory_archived_as_link
           (Sample.world_of (Directory Sample.dir_stat
                        [("current", SymLink Sample.link_stat "releases/124"
                                       (Some Sample.tree))]) (Some 0))
           (Sample.opts_with false false (Some "src/current") (Some "124.0.1"))
           ["/tmp/chromium-124"] "/tmp/chromium-124" "src/current" 0
           1712345678 Sample.link_stat "releases/124" (Some Sample.tree)
           ltac:(split; [reflexivity|]; split;
                 [exists "124.0.1"; split; reflexivity|];
                 repeat (split; [reflexivity|]);
                 exists ("1712345678" ++ Sample.newline); split; reflexivity)
           eq_refl eq_refl _ None).
  vm_compute. tauto.
Defined.
